(** * AirSketch: the gesture recognizer of [gesture_recognizer.py]

    A shallow embedding of class [GestureRecognizer]: a bounded history of
    fingertip positions, a cooldown counter, [update] and the three detectors
    [detectSwipe], [detectPush] and [detectPull].

    Python integers are [Z], the direction labels are the strings of the
    source, the history is a [deque] with its [maxlen], and a method is a
    computation over the instance that either returns a value or raises,
    keeping the attribute writes made before the exception. *)

From Stdlib Require Import ZArith List String Bool Lia ZifyBool.
Import ListNotations.
Open Scope string_scope.
Open Scope list_scope.
Open Scope Z_scope.

(** ** The pieces of the Python runtime the class relies on *)

Module Py.

Inductive exn : Type :=
| NameError
| IndexError
| ValueError
| TypeError
| OverflowError.

Inductive outcome (A : Type) : Type :=
| Return (a : A)
| Raise (e : exn).
Arguments Return {A} a.
Arguments Raise {A} e.

(** What a module-level name can be bound to in [gesture_recognizer.py]. *)
Inductive object : Type :=
| Module_ (name : string)
| Class_ (name : string)
| Typing_ (name : string)
| Int_ (z : Z).

Definition namespace : Type := list (string * object).

Fixpoint lookup (g : namespace) (name : string) : option object :=
  match g with
  | [] => None
  | (k, v) :: g' => if String.eqb k name then Some v else lookup g' name
  end.

(** [x > z] for an object [x] and an integer [z]: only integers are
    ordered against an integer. *)
Definition gt_int (x : object) (z : Z) : outcome bool :=
  match x with
  | Int_ v => Return (v >? z)
  | _ => Raise TypeError
  end.

(** [collections.deque] with a [maxlen]; [items] is oldest-first. *)
Record deque (A : Type) : Type := mkDeque { maxlen : Z; items : list A }.
Arguments mkDeque {A} maxlen items.
Arguments maxlen {A} d.
Arguments items {A} d.

(** [deque(maxlen=n)]: [n] is first converted to the C index type (64
    bits, signed), which overflows outside its range; a negative [n] is
    then refused. *)
Definition deque_new {A : Type} (n : Z) : outcome (deque A) :=
  if (n <? - 2 ^ 63) || (2 ^ 63 <=? n) then Raise OverflowError
  else if n <? 0 then Raise ValueError
  else Return (mkDeque n []).

Definition len {A : Type} (d : deque A) : Z := Z.of_nat (List.length (items d)).

(** [d.append(x)]: the item goes to the right end, and when the deque is
    then longer than [maxlen] one item is dropped from the left end. *)
Definition append {A : Type} (d : deque A) (x : A) : deque A :=
  let l := items d ++ [x] in
  mkDeque (maxlen d)
          (if maxlen d <? Z.of_nat (List.length l) then tl l else l).

(** [d[i]], a negative [i] counting from the right end. *)
Definition getitem {A : Type} (d : deque A) (i : Z) : outcome A :=
  let j := if i <? 0 then i + len d else i in
  if (j <? 0) || (len d <=? j) then Raise IndexError
  else match nth_error (items d) (Z.to_nat j) with
       | Some x => Return x
       | None => Raise IndexError
       end.

(** [np.sqrt(n)] on a Python integer [n >= 0]. An integer of 64 bits is
    converted to a float64 and its square root taken; a larger one is not
    a number NumPy has a square root for, and the call is a [TypeError].
    The float64 returned is modelled by its integer part, which is all an
    integer comparison with it reads when the float is exact: that is so
    for [n < 2^52] and a threshold below [2^53] in absolute value. Past
    that range float64 rounding can move the comparison, and statements
    that depend on it carry the bound. *)
Definition np_sqrt (n : Z) : outcome Z :=
  if 2 ^ 64 <=? n then Raise TypeError else Return (Z.sqrt n).

End Py.
Import Py.

(** ** The instance and the method monad *)

Definition point : Type := (Z * Z)%type.

Record GestureRecognizer : Type := mkGestureRecognizer {
  position_history : deque point;
  last_gesture : option string;
  gesture_cooldown : Z;
  cooldown_frames : Z
}.

(** A method body: it reads and writes [self] and returns or raises. *)
Definition method (A : Type) : Type :=
  GestureRecognizer -> outcome A * GestureRecognizer.

Definition ret {A : Type} (a : A) : method A := fun self => (Return a, self).

Definition raise {A : Type} (e : exn) : method A := fun self => (Raise e, self).

Definition bind {A B : Type} (m : method A) (k : A -> method B) : method B :=
  fun self =>
    match m self with
    | (Return a, self') => k a self'
    | (Raise e, self') => (Raise e, self')
    end.

Definition lift {A : Type} (o : outcome A) : method A := fun self => (o, self).

Definition read {A : Type} (f : GestureRecognizer -> A) : method A :=
  fun self => (Return (f self), self).

Definition write (f : GestureRecognizer -> GestureRecognizer) : method unit :=
  fun self => (Return tt, f self).

Declare Scope method_scope.
Delimit Scope method_scope with method.
Notation "x <- m ;; k" := (bind m (fun x => k))
  (at level 61, m at next level, right associativity) : method_scope.
Notation "m ;; k" := (bind m (fun _ => k))
  (at level 61, right associativity) : method_scope.
Open Scope method_scope.

Definition result {A : Type} (r : outcome A * GestureRecognizer) : outcome A :=
  fst r.
Definition after {A : Type} (r : outcome A * GestureRecognizer)
  : GestureRecognizer := snd r.

(** Attribute writes. *)
Definition set_position_history (d : deque point) (self : GestureRecognizer)
  : GestureRecognizer :=
  mkGestureRecognizer d (last_gesture self) (gesture_cooldown self)
                      (cooldown_frames self).

Definition set_gesture_cooldown (c : Z) (self : GestureRecognizer)
  : GestureRecognizer :=
  mkGestureRecognizer (position_history self) (last_gesture self) c
                      (cooldown_frames self).

(** ** The module and the class *)

(** The names bound at module level: the three imports and the class. *)
Definition module_globals : namespace :=
  [ ("np", Module_ "numpy");
    ("deque", Class_ "collections.deque");
    ("Tuple", Typing_ "typing.Tuple");
    ("Optional", Typing_ "typing.Optional");
    ("GestureRecognizer", Class_ "GestureRecognizer") ].

(** A name that is neither a local nor an attribute is looked up in the
    module's globals. *)
Definition load_global (name : string) : method object :=
  match lookup module_globals name with
  | Some v => ret v
  | None => raise NameError
  end.

(** [__init__(self, history_size=10)]. *)
Definition init (history_size : Z) : outcome GestureRecognizer :=
  match deque_new history_size with
  | Return d => Return (mkGestureRecognizer d None 0 15)
  | Raise e => Raise e
  end.

(** A call of the class with positional arguments [args] and keyword
    arguments [kwargs]: they are bound to the one parameter [history_size]
    of [__init__], and any other argument is a [TypeError]. *)
Definition GestureRecognizer_call (args : list Z) (kwargs : list (string * Z))
  : outcome GestureRecognizer :=
  match args, kwargs with
  | [], [] => init 10
  | [n], [] => init n
  | [], [(k, n)] => if String.eqb k "history_size" then init n
                    else Raise TypeError
  | _, _ => Raise TypeError
  end.

(** [if position:] on an [Optional[Tuple[int, int]]]: [None] is false and a
    pair is true whatever its coordinates, a tuple being false only when it
    is empty. *)
Definition truth (position : option point) : bool :=
  match position with
  | None => false
  | Some _ => true
  end.

Definition update (position : option point) : method unit :=
  (if truth position
   then match position with
        | Some p =>
            write (fun self =>
                     set_position_history (append (position_history self) p) self)
        | None => ret tt
        end
   else ret tt) ;;
  g <- load_global "gesture_cooldown" ;;
  b <- lift (gt_int g 0) ;;
  if (b : bool)
  then write (fun self => set_gesture_cooldown (gesture_cooldown self - 1) self)
  else ret tt.

(** The value [np.sqrt(dx**2 + dy**2)] has when it returns (see
    [np_sqrt]). With an integer threshold [t] the comparison [sqrt n < t]
    of the exact square root is the comparison of its integer part,
    [Z.sqrt n < t], that is [n < t * t] when [t] is positive (see
    [distance_below_threshold]). *)
Definition distance (dx dy : Z) : Z := Z.sqrt (dx ^ 2 + dy ^ 2).

Definition detected_direction (dx dy : Z) : string :=
  if Z.abs dx >? Z.abs dy
  then (if dx >? 0 then "right" else "left")
  else (if dy >? 0 then "down" else "up").

Definition detectSwipe (direction : string) (threshold : Z)
  : method (option string) :=
  n <- read (fun self => len (position_history self)) ;;
  if n <? 5 then ret None
  else
    start <- bind (read position_history) (fun h => lift (getitem h 0)) ;;
    end_ <- bind (read position_history) (fun h => lift (getitem h (-1))) ;;
    let dx := fst end_ - fst start in
    let dy := snd end_ - snd start in
    distance <- lift (np_sqrt (dx ^ 2 + dy ^ 2)) ;;
    if distance <? threshold then ret None
    else
      let detected := detected_direction dx dy in
      if String.eqb direction "any" || String.eqb direction detected
      then
        c <- read gesture_cooldown ;;
        if c =? 0
        then write (fun self => set_gesture_cooldown (cooldown_frames self) self) ;;
             ret (Some detected)
        else ret None
      else ret None.

Definition detectPush (threshold : Z) : method bool :=
  n <- read (fun self => len (position_history self)) ;;
  if n <? 5 then ret false
  else
    start <- bind (read position_history) (fun h => lift (getitem h 0)) ;;
    end_ <- bind (read position_history) (fun h => lift (getitem h (-1))) ;;
    let dy := snd end_ - snd start in
    c <- read gesture_cooldown ;;
    if (dy >? threshold) && (c =? 0)
    then write (fun self => set_gesture_cooldown (cooldown_frames self) self) ;;
         ret true
    else ret false.

Definition detectPull (threshold : Z) : method bool :=
  n <- read (fun self => len (position_history self)) ;;
  if n <? 5 then ret false
  else
    start <- bind (read position_history) (fun h => lift (getitem h 0)) ;;
    end_ <- bind (read position_history) (fun h => lift (getitem h (-1))) ;;
    let dx := snd end_ - snd start in
    c <- read gesture_cooldown ;;
    if (dx <? - threshold) && (c =? 0)
    then write (fun self => set_gesture_cooldown (cooldown_frames self) self) ;;
         ret true
    else ret false.

(** ** Running a sequence of calls *)

Inductive call : Type :=
| Update (position : option point)
| DetectSwipe (direction : string) (threshold : Z)
| DetectPush (threshold : Z)
| DetectPull (threshold : Z).

(** The instance a call leaves behind, whether it returned or raised (a
    caller that catches the exception goes on with this instance). *)
Definition exec (c : call) (self : GestureRecognizer) : GestureRecognizer :=
  match c with
  | Update position => after (update position self)
  | DetectSwipe direction threshold => after (detectSwipe direction threshold self)
  | DetectPush threshold => after (detectPush threshold self)
  | DetectPull threshold => after (detectPull threshold self)
  end.

Definition exec_all (cs : list call) (self : GestureRecognizer)
  : GestureRecognizer :=
  fold_left (fun s c => exec c s) cs self.

(** The instances a program can hold: a constructed one, after any calls. *)
Inductive reachable : GestureRecognizer -> Prop :=
| reachable_init args kwargs self :
    GestureRecognizer_call args kwargs = Return self -> reachable self
| reachable_exec c self :
    reachable self -> reachable (exec c self).

(** ** Vocabulary of the statements *)

Definition history (self : GestureRecognizer) : list point :=
  items (position_history self).

Definition history_size (self : GestureRecognizer) : Z :=
  maxlen (position_history self).

Definition oldest (self : GestureRecognizer) : point := hd (0, 0) (history self).

Definition newest (self : GestureRecognizer) : point := last (history self) (0, 0).

Definition dx (self : GestureRecognizer) : Z := fst (newest self) - fst (oldest self).

Definition dy (self : GestureRecognizer) : Z := snd (newest self) - snd (oldest self).

(** The positions present in a sequence of per-tick inputs, in order. *)
Fixpoint present (inputs : list (option point)) : list point :=
  match inputs with
  | [] => []
  | Some p :: rest => p :: present rest
  | None :: rest => present rest
  end.

(** The last [n] elements of a list. *)
Definition lastn {A : Type} (n : Z) (l : list A) : list A :=
  skipn (List.length l - Z.to_nat n) l.

(** The deque invariant: it never holds more than [maxlen] items. *)
Definition bounded (self : GestureRecognizer) : Prop :=
  0 <= history_size self /\
  Z.of_nat (List.length (history self)) <= history_size self.

(** A recognizer of capacity 10 with a given history and cooldown. *)
Definition sample (h : list point) (c : Z) : GestureRecognizer :=
  mkGestureRecognizer (mkDeque 10 h) None c 15.

(** Case analysis on every test a method equation branches on. *)
Ltac case_ifs :=
  repeat match goal with |- context [if ?b then _ else _] => destruct b end.

(** ** Vocabulary for runs and for moved histories *)

(** Whether a call, made on [self], reports a gesture. *)
Definition reports (c : call) (self : GestureRecognizer) : bool :=
  match c with
  | Update _ => false
  | DetectSwipe direction threshold =>
      match result (detectSwipe direction threshold self) with
      | Return (Some _) => true
      | _ => false
      end
  | DetectPush threshold =>
      match result (detectPush threshold self) with
      | Return true => true
      | _ => false
      end
  | DetectPull threshold =>
      match result (detectPull threshold self) with
      | Return true => true
      | _ => false
      end
  end.

(** How many calls of a sequence, run in order from [self], report a
    gesture. *)
Fixpoint gestures_reported (cs : list call) (self : GestureRecognizer) : nat :=
  match cs with
  | [] => 0
  | c :: cs' =>
      ((if reports c self then 1 else 0) + gestures_reported cs' (exec c self))%nat
  end.

(** The same recognizer with every sample of its history moved by [v]. *)
Definition translate (v : point) (self : GestureRecognizer) : GestureRecognizer :=
  set_position_history
    (mkDeque (maxlen (position_history self))
             (map (fun p : point => (fst p + fst v, snd p + snd v))
                  (items (position_history self))))
    self.

(** The same recognizer with another history in its deque. *)
Definition with_history (h : list point) (self : GestureRecognizer)
  : GestureRecognizer :=
  set_position_history (mkDeque (maxlen (position_history self)) h) self.

(** * The hand tracker of [hand_tracker.py]

    Class [HandTracker] keeps the last MediaPipe result and the shape of
    the last frame. The camera frame, the MediaPipe graph and the drawing
    are outside the model: [find_hands] takes the shape of the frame and the
    result of [hands.process] as given. A normalized landmark coordinate is
    a float; the pixel conversion [int(c * size)] is the parameter
    [to_pixel], and nothing below depends on how it rounds. The tracker's
    methods do not write the instance ([find_hands] apart), so they are
    functions into [outcome]. *)

Definition obind {A B : Type} (o : outcome A) (k : A -> outcome B) : outcome B :=
  match o with
  | Return a => k a
  | Raise e => Raise e
  end.

Declare Scope outcome_scope.
Delimit Scope outcome_scope with outcome.
Notation "x <- o ;; k" := (obind o (fun x => k))
  (at level 61, o at next level, right associativity) : outcome_scope.

(** [l[i]] on a Python list, a negative [i] counting from the end. *)
Definition list_getitem {A : Type} (l : list A) (i : Z) : outcome A :=
  let n := Z.of_nat (List.length l) in
  let j := if i <? 0 then i + n else i in
  if (j <? 0) || (n <=? j) then Raise IndexError
  else match nth_error l (Z.to_nat j) with
       | Some x => Return x
       | None => Raise IndexError
       end.

(** [not l] for an optional list: [None] and the empty list are false. *)
Definition falsy {A : Type} (o : option (list A)) : bool :=
  match o with
  | None => true
  | Some [] => true
  | Some (_ :: _) => false
  end.

Section HandTracker.

Variable coord : Type.
Variable to_pixel : coord -> Z -> Z.

(** A normalized landmark: its [x] and [y]. *)
Record landmark : Type := mkLandmark { lm_x : coord; lm_y : coord }.

(** [hand_landmarks.landmark], the landmarks of one hand. *)
Definition hand : Type := list landmark.

(** The result of [hands.process]: [multi_hand_landmarks] is [None] or the
    list of detected hands. *)
Record SolutionOutputs : Type := mkOutputs {
  multi_hand_landmarks : option (list hand)
}.

Record HandTracker : Type := mkHandTracker {
  results : option SolutionOutputs;
  frame_shape : option (Z * Z * Z)
}.

(** [__init__]: no result and no frame shape yet. *)
Definition HandTracker_init : HandTracker := mkHandTracker None None.

(** [find_hands(frame)]: the shape of the frame and the result of
    [hands.process] on it are stored. *)
Definition find_hands (shape : Z * Z * Z) (processed : SolutionOutputs)
           (self : HandTracker) : HandTracker :=
  mkHandTracker (Some processed) (Some shape).

(** [not self.results or not self.results.multi_hand_landmarks]. *)
Definition no_hands (self : HandTracker) : bool :=
  match results self with
  | None => true
  | Some r => falsy (multi_hand_landmarks r)
  end.

(** [self.results.multi_hand_landmarks], read once [no_hands] is false. *)
Definition hands_of (self : HandTracker) : list hand :=
  match results self with
  | Some (mkOutputs (Some hs)) => hs
  | _ => []
  end.

(** [h, w, _ = self.frame_shape]. *)
Definition unpack_shape (self : HandTracker) : outcome (Z * Z) :=
  match frame_shape self with
  | Some (h, w, _) => Return (h, w)
  | None => Raise TypeError
  end.

Definition get_finger_tip_position (hand_index : Z) (self : HandTracker)
  : outcome (option point) :=
  (if no_hands self then Return None
   else if hand_index >=? Z.of_nat (List.length (hands_of self)) then Return None
   else
     hand_landmarks <- list_getitem (hands_of self) hand_index ;;
     tip <- list_getitem hand_landmarks 8 ;;
     hw <- unpack_shape self ;;
     let x := to_pixel (lm_x tip) (snd hw) in
     let y := to_pixel (lm_y tip) (fst hw) in
     Return (Some (x, y)))%outcome.

Definition get_all_landmarks (hand_index : Z) (self : HandTracker)
  : outcome (option (list point)) :=
  (if no_hands self then Return None
   else if hand_index >=? Z.of_nat (List.length (hands_of self)) then Return None
   else
     hand_landmarks <- list_getitem (hands_of self) hand_index ;;
     hw <- unpack_shape self ;;
     Return (Some (map (fun l => (to_pixel (lm_x l) (snd hw),
                                  to_pixel (lm_y l) (fst hw)))
                       hand_landmarks)))%outcome.

Definition is_pinching (hand_index : Z) (threshold : Z) (self : HandTracker)
  : outcome bool :=
  (landmarks <- get_all_landmarks hand_index self ;;
   if falsy landmarks then Return false
   else
     let l := match landmarks with Some l => l | None => [] end in
     thumb_tip <- list_getitem l 4 ;;
     index_tip <- list_getitem l 8 ;;
     distance <- np_sqrt ((fst thumb_tip - fst index_tip) ^ 2
                          + (snd thumb_tip - snd index_tip) ^ 2) ;;
     Return (distance <? threshold))%outcome.

Definition finger_tips : list Z := [8; 12; 16; 20].
Definition finger_joints : list Z := [6; 10; 14; 18].

(** The loop over [zip(finger_tips, finger_joints)], from a count so far. *)
Fixpoint count_loop (l : list point) (pairs : list (Z * Z)) (fingers_up : Z)
  : outcome Z :=
  match pairs with
  | [] => Return fingers_up
  | (tip, joint) :: rest =>
      (t <- list_getitem l tip ;;
       j <- list_getitem l joint ;;
       count_loop l rest (if snd t <? snd j then fingers_up + 1 else fingers_up))%outcome
  end.

Definition count_fingers_up (hand_index : Z) (self : HandTracker) : outcome Z :=
  (landmarks <- get_all_landmarks hand_index self ;;
   if falsy landmarks then Return 0
   else
     let l := match landmarks with Some l => l | None => [] end in
     thumb_tip <- list_getitem l 4 ;;
     thumb_joint <- list_getitem l 3 ;;
     let fingers_up := if fst thumb_tip <? fst thumb_joint then 1 else 0 in
     count_loop l (combine finger_tips finger_joints) fingers_up)%outcome.

End HandTracker.

Arguments mkLandmark {coord} lm_x lm_y.
Arguments lm_x {coord} l.
Arguments lm_y {coord} l.
Arguments mkOutputs {coord} multi_hand_landmarks.
Arguments multi_hand_landmarks {coord} s.
Arguments mkHandTracker {coord} results frame_shape.
Arguments results {coord} h.
Arguments frame_shape {coord} h.
Arguments HandTracker_init {coord}.
Arguments find_hands {coord} shape processed self.
Arguments no_hands {coord} self.
Arguments hands_of {coord} self.
Arguments unpack_shape {coord} self.
Arguments get_finger_tip_position {coord} to_pixel hand_index self.
Arguments get_all_landmarks {coord} to_pixel hand_index self.
Arguments is_pinching {coord} to_pixel hand_index threshold self.
Arguments count_fingers_up {coord} to_pixel hand_index self.

(** A conversion to run the tracker on. The coordinate is [c / 1024], a
    float that holds it exactly for [|c| < 2^24]; its product with [size]
    is then exact too, and [int] truncates it toward zero. *)
Definition pixel_of_1024th (c : Z) (size : Z) : Z := Z.quot (c * size) 1024.

(** The range on which the float64 comparison of [np.sqrt(n)] with a
    threshold [t] is the exact one. *)
Definition float_exact (n t : Z) : Prop := n < 2 ^ 52 /\ Z.abs t < 2 ^ 53.

(** ** The scenarios of the specification, run on the embedding *)

Example swipe_right_scenario :
  detectSwipe "any" 100 (sample [(0,0); (0,0); (0,0); (0,0); (200,0)] 0)
  = (Return (Some "right"), sample [(0,0); (0,0); (0,0); (0,0); (200,0)] 15).
Proof. reflexivity. Qed.

Example swipe_second_call_scenario :
  detectSwipe "any" 100 (sample [(0,0); (0,0); (0,0); (0,0); (200,0)] 15)
  = (Return None, sample [(0,0); (0,0); (0,0); (0,0); (200,0)] 15).
Proof. reflexivity. Qed.

Example push_scenario :
  let s := sample [(0,0); (0,50); (0,100); (0,150); (0,200)] 0 in
  result (detectPush 150 s) = Return true /\ result (detectPull 150 s) = Return false.
Proof. split; reflexivity. Qed.

Example pull_scenario :
  result (detectPull 150 (sample [(0,0); (0,-50); (0,-100); (0,-150); (0,-200)] 0))
  = Return true.
Proof. reflexivity. Qed.

Example update_origin_scenario :
  update (Some (0, 0)) (sample [] 0) = (Raise NameError, sample [(0, 0)] 0).
Proof. reflexivity. Qed.

(** ** Equations of the methods *)

Lemma distance_below_threshold (a b t : Z) :
  0 < t -> (distance a b < t <-> a ^ 2 + b ^ 2 < t * t).
Proof.
  intros Ht. unfold distance.
  assert (Hn : 0 <= a ^ 2 + b ^ 2) by nia.
  split; intros H.
  - destruct (Z.sqrt_spec (a ^ 2 + b ^ 2) Hn) as [_ Hup].
    set (r := Z.sqrt (a ^ 2 + b ^ 2)) in *.
    assert (0 <= r) by apply Z.sqrt_nonneg.
    assert (Z.succ r * Z.succ r <= t * t) by nia. lia.
  - apply Z.sqrt_lt_square; lia.
Qed.

Lemma distance_nonneg (a b : Z) : 0 <= distance a b.
Proof. unfold distance. apply Z.sqrt_nonneg. Qed.

Lemma nth_error_last {A : Type} (l : list A) (d : A) :
  l <> [] -> nth_error l (List.length l - 1) = Some (last l d).
Proof.
  induction l as [|x l IH]; intros Hne; [congruence|].
  destruct l as [|y l]; [reflexivity|].
  replace (List.length (x :: y :: l) - 1)%nat
    with (S (List.length (y :: l) - 1)) by (cbn [List.length]; lia).
  cbn [nth_error]. rewrite IH by discriminate. reflexivity.
Qed.

Lemma getitem_oldest {A : Type} (d : deque A) (dflt : A) :
  0 < len d -> getitem d 0 = Return (hd dflt (items d)).
Proof.
  unfold getitem. intros H. cbv zeta.
  change (0 <? 0) with false. cbv iota. cbn [orb].
  destruct (len d <=? 0) eqn:E; [lia|].
  unfold len in H. destruct (items d) as [|x l]; [cbn in H; lia|reflexivity].
Qed.

Lemma getitem_newest {A : Type} (d : deque A) (dflt : A) :
  0 < len d -> getitem d (-1) = Return (last (items d) dflt).
Proof.
  unfold getitem. intros H. cbv zeta.
  change (-1 <? 0) with true. cbv iota.
  destruct (-1 + len d <? 0) eqn:E1; [lia|].
  destruct (len d <=? -1 + len d) eqn:E2; [lia|]. cbn [orb].
  unfold len in *.
  replace (Z.to_nat (-1 + Z.of_nat (List.length (items d))))
    with (List.length (items d) - 1)%nat by lia.
  rewrite (nth_error_last _ dflt); [reflexivity|].
  intros Hnil. rewrite Hnil in H. cbn in H. lia.
Qed.

Lemma update_equation (position : option point) (self : GestureRecognizer) :
  update position self
  = (Raise NameError,
     match position with
     | Some p => set_position_history (append (position_history self) p) self
     | None => self
     end).
Proof. destruct position; reflexivity. Qed.

Lemma detectSwipe_equation (direction : string) (threshold : Z)
      (self : GestureRecognizer) :
  detectSwipe direction threshold self
  = if len (position_history self) <? 5 then (Return None, self)
    else if 2 ^ 64 <=? dx self ^ 2 + dy self ^ 2 then (Raise TypeError, self)
    else if distance (dx self) (dy self) <? threshold then (Return None, self)
    else if (String.eqb direction "any"
             || String.eqb direction (detected_direction (dx self) (dy self)))
            && (gesture_cooldown self =? 0)
    then (Return (Some (detected_direction (dx self) (dy self))),
          set_gesture_cooldown (cooldown_frames self) self)
    else (Return None, self).
Proof.
  unfold detectSwipe, bind, read, lift, ret, write. cbv beta iota.
  destruct (len (position_history self) <? 5) eqn:E; [reflexivity|].
  assert (H : 0 < len (position_history self)) by lia.
  rewrite (@getitem_oldest point _ (0, 0) H), (@getitem_newest point _ (0, 0) H).
  unfold dx, dy, oldest, newest, history, np_sqrt, distance.
  destruct (2 ^ 64 <=? _); [reflexivity|].
  destruct (Z.sqrt _ <? threshold); [reflexivity|].
  destruct (String.eqb direction "any" || String.eqb direction _);
    [|reflexivity].
  cbn [andb]. destruct (gesture_cooldown self =? 0); reflexivity.
Qed.

Lemma detectPush_equation (threshold : Z) (self : GestureRecognizer) :
  detectPush threshold self
  = if len (position_history self) <? 5 then (Return false, self)
    else if (dy self >? threshold) && (gesture_cooldown self =? 0)
    then (Return true, set_gesture_cooldown (cooldown_frames self) self)
    else (Return false, self).
Proof.
  unfold detectPush, bind, read, lift, ret, write. cbv beta iota.
  destruct (len (position_history self) <? 5) eqn:E; [reflexivity|].
  assert (H : 0 < len (position_history self)) by lia.
  rewrite (@getitem_oldest point _ (0, 0) H), (@getitem_newest point _ (0, 0) H).
  unfold dy, oldest, newest, history.
  destruct ((_ >? threshold) && (gesture_cooldown self =? 0)); reflexivity.
Qed.

Lemma detectPull_equation (threshold : Z) (self : GestureRecognizer) :
  detectPull threshold self
  = if len (position_history self) <? 5 then (Return false, self)
    else if (dy self <? - threshold) && (gesture_cooldown self =? 0)
    then (Return true, set_gesture_cooldown (cooldown_frames self) self)
    else (Return false, self).
Proof.
  unfold detectPull, bind, read, lift, ret, write. cbv beta iota.
  destruct (len (position_history self) <? 5) eqn:E; [reflexivity|].
  assert (H : 0 < len (position_history self)) by lia.
  rewrite (@getitem_oldest point _ (0, 0) H), (@getitem_newest point _ (0, 0) H).
  unfold dy, oldest, newest, history.
  destruct ((_ <? - threshold) && (gesture_cooldown self =? 0)); reflexivity.
Qed.

(** ** The history as a sliding window *)

Lemma append_items {A : Type} (d : deque A) (x : A) :
  0 <= maxlen d -> len d <= maxlen d ->
  items (append d x)
  = if len d =? maxlen d then tl (items d ++ [x]) else items d ++ [x].
Proof.
  unfold append, len. intros H0 Hle. cbn [items].
  rewrite length_app. cbn [List.length].
  destruct (Z.of_nat (List.length (items d)) =? maxlen d) eqn:E.
  - destruct (maxlen d <? Z.of_nat (List.length (items d) + 1)) eqn:E'; [reflexivity|lia].
  - destruct (maxlen d <? Z.of_nat (List.length (items d) + 1)) eqn:E'; [lia|reflexivity].
Qed.

Lemma append_bounded {A : Type} (d : deque A) (x : A) :
  0 <= maxlen d -> len d <= maxlen d -> len (append d x) <= maxlen (append d x).
Proof.
  intros H0 Hle. unfold len. rewrite append_items by assumption.
  unfold len in *. cbn [append maxlen].
  destruct (Z.of_nat (List.length (items d)) =? maxlen d) eqn:E.
  - destruct (items d) as [|y l]; cbn [app tl List.length] in *; [lia|].
    rewrite length_app. cbn [List.length]. lia.
  - rewrite length_app. cbn [List.length]. lia.
Qed.

Lemma lastn_all {A : Type} (n : Z) (l : list A) :
  Z.of_nat (List.length l) <= n -> lastn n l = l.
Proof.
  intros H. unfold lastn.
  replace (List.length l - Z.to_nat n)%nat with 0%nat by lia. reflexivity.
Qed.

Lemma lastn_length {A : Type} (n : Z) (l : list A) :
  0 <= n -> Z.of_nat (List.length (lastn n l)) = Z.min n (Z.of_nat (List.length l)).
Proof. intros H. unfold lastn. rewrite length_skipn. lia. Qed.

Lemma lastn_snoc {A : Type} (n : Z) (l : list A) (x : A) :
  0 <= n ->
  lastn n (l ++ [x])
  = if Z.of_nat (List.length (lastn n l)) =? n
    then tl (lastn n l ++ [x]) else lastn n l ++ [x].
Proof.
  intros Hn. rewrite lastn_length by assumption.
  destruct (Z.min n (Z.of_nat (List.length l)) =? n) eqn:E.
  - assert (Hle : (Z.to_nat n <= List.length l)%nat) by lia.
    unfold lastn. rewrite length_app. cbn [List.length].
    replace (List.length l + 1 - Z.to_nat n)%nat
      with (1 + (List.length l - Z.to_nat n))%nat by lia.
    rewrite <- skipn_skipn. cbn [skipn].
    rewrite skipn_app.
    replace (List.length l - Z.to_nat n - List.length l)%nat with 0%nat by lia.
    cbn [skipn]. destruct (skipn (List.length l - Z.to_nat n) l ++ [x]); reflexivity.
  - assert (Hlt : (List.length l < Z.to_nat n)%nat) by lia.
    unfold lastn. rewrite length_app. cbn [List.length].
    replace (List.length l + 1 - Z.to_nat n)%nat with 0%nat by lia.
    replace (List.length l - Z.to_nat n)%nat with 0%nat by lia.
    reflexivity.
Qed.

Lemma init_fields (n : Z) (self : GestureRecognizer) :
  init n = Return self ->
  0 <= n /\ self = mkGestureRecognizer (mkDeque n []) None 0 15.
Proof.
  unfold init, deque_new.
  destruct ((n <? - 2 ^ 63) || (2 ^ 63 <=? n)); [discriminate|].
  destruct (n <? 0) eqn:E; intros H; [discriminate|].
  injection H as <-. split; [lia|reflexivity].
Qed.

Lemma call_fields (args : list Z) (kwargs : list (string * Z))
      (self : GestureRecognizer) :
  GestureRecognizer_call args kwargs = Return self ->
  exists n, 0 <= n /\ self = mkGestureRecognizer (mkDeque n []) None 0 15.
Proof.
  unfold GestureRecognizer_call. intros H.
  destruct args as [|a [|a' args]], kwargs as [|[k v] [|kv kwargs]];
    try discriminate;
    try (destruct (String.eqb k "history_size"); try discriminate);
    eauto using init_fields.
Qed.

(** After an [update] the history is the window over the old history and
    the new position, and nothing else of the instance has changed. *)
Lemma update_history (position : option point) (self : GestureRecognizer) :
  bounded self ->
  history (after (update position self))
  = match position with
    | Some p => if len (position_history self) =? history_size self
                then tl (history self ++ [p]) else history self ++ [p]
    | None => history self
    end.
Proof.
  intros [H0 Hle]. rewrite update_equation. unfold after, history. cbn [snd].
  destruct position as [p|]; [|reflexivity].
  cbn [position_history set_position_history].
  apply append_items; assumption.
Qed.

Lemma exec_history_size (c : call) (self : GestureRecognizer) :
  history_size (exec c self) = history_size self.
Proof.
  destruct c as [position|direction threshold|threshold|threshold]; unfold exec.
  - rewrite update_equation. destruct position; reflexivity.
  - rewrite detectSwipe_equation.
    case_ifs;
      reflexivity.
  - rewrite detectPush_equation.
    case_ifs;
      reflexivity.
  - rewrite detectPull_equation.
    case_ifs;
      reflexivity.
Qed.

(** A detector leaves every attribute but [gesture_cooldown] as it was. *)
Lemma detector_frame (c : call) (self : GestureRecognizer) :
  (forall position, c <> Update position) ->
  position_history (exec c self) = position_history self /\
  last_gesture (exec c self) = last_gesture self /\
  cooldown_frames (exec c self) = cooldown_frames self /\
  (gesture_cooldown (exec c self) = gesture_cooldown self \/
   gesture_cooldown (exec c self) = cooldown_frames self).
Proof.
  intros Hc.
  destruct c as [position|direction threshold|threshold|threshold]; unfold exec.
  - exfalso. exact (Hc position eq_refl).
  - rewrite detectSwipe_equation.
    case_ifs;
      cbn; auto.
  - rewrite detectPush_equation.
    case_ifs;
      cbn; auto.
  - rewrite detectPull_equation.
    case_ifs;
      cbn; auto.
Qed.

Lemma exec_bounded (c : call) (self : GestureRecognizer) :
  bounded self -> bounded (exec c self).
Proof.
  intros Hb. destruct c as [position| | |].
  - destruct Hb as [H0 Hle]. unfold exec. rewrite update_equation.
    destruct position as [p|]; [|split; assumption].
    unfold bounded, history_size, history, after. cbn.
    split; [assumption|].
    apply (append_bounded (position_history self) p); assumption.
  - destruct (detector_frame (DetectSwipe direction threshold) self) as (E & _);
      [discriminate|].
    unfold bounded, history_size, history. rewrite E. exact Hb.
  - destruct (detector_frame (DetectPush threshold) self) as (E & _);
      [discriminate|].
    unfold bounded, history_size, history. rewrite E. exact Hb.
  - destruct (detector_frame (DetectPull threshold) self) as (E & _);
      [discriminate|].
    unfold bounded, history_size, history. rewrite E. exact Hb.
Qed.

(** What holds of every instance a program can hold. *)
Lemma reachable_invariant (self : GestureRecognizer) :
  reachable self ->
  bounded self /\ last_gesture self = None /\ cooldown_frames self = 15 /\
  (gesture_cooldown self = 0 \/ gesture_cooldown self = 15).
Proof.
  induction 1 as [args kwargs self H|c self Hr (Hb & Hl & Hc & Hg)].
  - destruct (call_fields _ _ _ H) as (n & Hn & ->).
    unfold bounded, history_size, history. cbn. repeat split; auto; lia.
  - split; [apply exec_bounded; assumption|].
    destruct c as [position| | |].
    + unfold exec. rewrite update_equation. destruct position; cbn; auto.
    + destruct (detector_frame (DetectSwipe direction threshold) self)
        as (_ & E1 & E2 & [E3|E3]); [discriminate| |];
        rewrite E1, E2, E3; auto.
    + destruct (detector_frame (DetectPush threshold) self)
        as (_ & E1 & E2 & [E3|E3]); [discriminate| |];
        rewrite E1, E2, E3; auto.
    + destruct (detector_frame (DetectPull threshold) self)
        as (_ & E1 & E2 & [E3|E3]); [discriminate| |];
        rewrite E1, E2, E3; auto.
Qed.

Lemma exec_all_snoc (cs : list call) (c : call) (self : GestureRecognizer) :
  exec_all (cs ++ [c]) self = exec c (exec_all cs self).
Proof. unfold exec_all. rewrite fold_left_app. reflexivity. Qed.

Lemma present_snoc (inputs : list (option point)) (position : option point) :
  present (inputs ++ [position])
  = present inputs ++ match position with Some p => [p] | None => [] end.
Proof.
  induction inputs as [|[q|] inputs IH]; cbn [app present].
  - destruct position; reflexivity.
  - rewrite IH. reflexivity.
  - exact IH.
Qed.

Lemma updates_window (n : Z) (self0 : GestureRecognizer)
      (inputs : list (option point)) :
  init n = Return self0 ->
  let self := exec_all (map Update inputs) self0 in
  history_size self = n /\ bounded self /\
  history self = lastn n (present inputs).
Proof.
  intros Hinit. destruct (init_fields _ _ Hinit) as [Hn ->].
  induction inputs as [|position inputs IH] using rev_ind; cbv zeta.
  - cbn. unfold bounded, history_size, history. cbn. repeat split; lia.
  - cbv zeta in IH. destruct IH as (Hsz & Hb & Hh).
    rewrite map_app. cbn [map]. rewrite exec_all_snoc.
    set (self := exec_all (map Update inputs) _) in *.
    split; [rewrite exec_history_size; exact Hsz|].
    split; [apply exec_bounded; exact Hb|].
    unfold exec. rewrite (update_history position self Hb).
    rewrite present_snoc. destruct position as [p|].
    + rewrite lastn_snoc by assumption. rewrite <- Hh, Hsz. reflexivity.
    + rewrite app_nil_r. exact Hh.
Qed.

(** ** The cooldown counter *)

(** C1. [update] is meant to take one off [gesture_cooldown] while it is
    positive. The test reads the bare name [gesture_cooldown], which the
    module does not bind: for every instance and every input (a position
    or none) the call raises [NameError] and [gesture_cooldown] keeps its
    value. In particular an instance in cooldown (15 after a swipe) still
    has 15 after [update(None)], where a decrement by one gives 14. *)
Theorem update_raises_before_decrement :
  (forall (self : GestureRecognizer) (position : option point),
      result (update position self) = Raise NameError /\
      gesture_cooldown (after (update position self)) = gesture_cooldown self) /\
  (let self := sample [(0,0); (0,0); (0,0); (0,0); (200,0)] 15 in
   update None self = (Raise NameError, self) /\
   gesture_cooldown (after (update None self)) <> 14).
Proof.
  split.
  - intros self position. rewrite update_equation.
    destruct position; split; reflexivity.
  - cbv zeta. split; [reflexivity|]. cbn. discriminate.
Qed.



(** ** The position history *)

(** C3. Over any sequence of [update] calls on a constructed recognizer of
    capacity [n], the history is the window of the last [n] positions that
    were present, oldest first, and its length stays between 0 and [n]. A
    further call with a position [p] (the origin included: it counts as a
    position) puts [p] at the newest end and drops the oldest entry when the
    history already held [n] points, so that with [n >= 1] the newest entry
    is [p]; a call with no position leaves the history as it was. *)
Theorem update_history_window (n : Z) (self0 : GestureRecognizer)
        (inputs : list (option point)) (p : point) :
  init n = Return self0 ->
  let self := exec_all (map Update inputs) self0 in
  history (after (update (Some p) self))
  = (if Z.of_nat (List.length (history self)) =? n
     then tl (history self ++ [p]) else history self ++ [p]) /\
  history (after (update (Some (0, 0)) self))
  = (if Z.of_nat (List.length (history self)) =? n
     then tl (history self ++ [(0, 0)]) else history self ++ [(0, 0)]) /\
  (1 <= n -> newest (after (update (Some p) self)) = p) /\
  after (update None self) = self /\
  0 <= Z.of_nat (List.length (history self)) <= n /\
  history_size self = n /\
  history self = lastn n (present inputs).
Proof.
  intros Hinit. cbv zeta.
  destruct (updates_window n self0 inputs Hinit) as (Hsz & Hb & Hh).
  set (self := exec_all (map Update inputs) self0) in *.
  assert (Hstep : forall q,
             history (after (update (Some q) self))
             = (if Z.of_nat (List.length (history self)) =? n
                then tl (history self ++ [q]) else history self ++ [q])).
  { intros q. rewrite (update_history (Some q) self Hb), Hsz. reflexivity. }
  split; [apply Hstep|]. split; [apply Hstep|].
  split.
  { intros Hn. unfold newest. rewrite Hstep.
    destruct (Z.of_nat (List.length (history self)) =? n) eqn:E.
    - destruct (history self) as [|y l]; [cbn [List.length] in E; lia|].
      cbn [app tl]. apply last_last.
    - apply last_last. }
  split; [rewrite update_equation; reflexivity|].
  destruct Hb as [H0 Hle]. rewrite Hsz in Hle.
  repeat split; try assumption; lia.
Qed.

Lemma update_history_window_witness :
  let self := exec_all (map Update [Some (1, 1); None; Some (0, 0); Some (3, 3)])
                       (mkGestureRecognizer (mkDeque 2 []) None 0 15) in
  history self = [(0, 0); (3, 3)] /\
  history (after (update (Some (4, 4)) self)) = [(3, 3); (4, 4)] /\
  newest (after (update (Some (4, 4)) self)) = (4, 4).
Proof.
  destruct (update_history_window 2 (mkGestureRecognizer (mkDeque 2 []) None 0 15)
              [Some (1, 1); None; Some (0, 0); Some (3, 3)] (4, 4) eq_refl)
    as (H1 & _ & H3 & _ & _ & _ & H7).
  cbv zeta. split; [exact H7|]. split; [exact H1|]. apply H3. lia.
Defined.

Example update_capacity_zero :
  history (after (update (Some (1, 1)) (mkGestureRecognizer (mkDeque 0 []) None 0 15)))
  = [].
Proof. reflexivity. Qed.

(** ** The detectors *)

Lemma distance_meets_threshold (a b t : Z) :
  t <= 0 \/ t * t <= a ^ 2 + b ^ 2 -> (distance a b <? t) = false.
Proof.
  intros [H|H].
  - pose proof (distance_nonneg a b). lia.
  - destruct (Z.leb_spec t 0) as [H0|H0].
    + pose proof (distance_nonneg a b). lia.
    + pose proof (distance_below_threshold a b t H0) as [Hlt _]. lia.
Qed.

Lemma detected_direction_cases (a b : Z) :
  (Z.abs a > Z.abs b /\ a > 0 /\ detected_direction a b = "right") \/
  (Z.abs a > Z.abs b /\ a <= 0 /\ detected_direction a b = "left") \/
  (Z.abs a <= Z.abs b /\ b > 0 /\ detected_direction a b = "down") \/
  (Z.abs a <= Z.abs b /\ b <= 0 /\ detected_direction a b = "up").
Proof.
  unfold detected_direction.
  destruct (Z.abs a >? Z.abs b) eqn:E1;
    [destruct (a >? 0) eqn:E2|destruct (b >? 0) eqn:E2].
  - left. repeat split; lia.
  - right; left. repeat split; lia.
  - right; right; left. repeat split; lia.
  - right; right; right. repeat split; lia.
Qed.

(** C4. With at least 5 samples and a displacement [(dx, dy)] from the
    oldest to the newest sample whose Euclidean length meets the
    threshold, the label [detectSwipe] returns is horizontal ("right" if
    [dx > 0], else "left") exactly when [|dx| > |dy|], and vertical ("down"
    if [dy > 0], else "up") otherwise; with no cooldown and direction "any"
    that label is returned (the squared displacement being below 2^64, so
    that [np.sqrt] returns), and for [dx = dy = 50] it is "down". *)
Theorem detectSwipe_axis_classification (self : GestureRecognizer)
        (direction : string) (threshold : Z) :
  5 <= len (position_history self) ->
  threshold <= 0 \/ threshold * threshold <= dx self ^ 2 + dy self ^ 2 ->
  (forall d,
      result (detectSwipe direction threshold self) = Return (Some d) ->
      (Z.abs (dx self) > Z.abs (dy self) ->
       d = if dx self >? 0 then "right" else "left") /\
      (Z.abs (dx self) <= Z.abs (dy self) ->
       d = if dy self >? 0 then "down" else "up") /\
      (d = "right" \/ d = "left" <-> Z.abs (dx self) > Z.abs (dy self))) /\
  (gesture_cooldown self = 0 -> direction = "any" ->
   dx self ^ 2 + dy self ^ 2 < 2 ^ 64 ->
   result (detectSwipe direction threshold self)
   = Return (Some (detected_direction (dx self) (dy self))) /\
   gesture_cooldown (after (detectSwipe direction threshold self))
   = cooldown_frames self) /\
  (gesture_cooldown self = 0 -> direction = "any" ->
   dx self = 50 -> dy self = 50 ->
   result (detectSwipe direction threshold self) = Return (Some "down")).
Proof.
  intros Hlen Hdist. rewrite detectSwipe_equation.
  destruct (len (position_history self) <? 5) eqn:E; [lia|].
  rewrite (distance_meets_threshold _ _ _ Hdist).
  repeat apply conj.
  - intros d. destruct (2 ^ 64 <=? _); [discriminate|].
    destruct ((String.eqb direction "any" || String.eqb direction _)
              && (gesture_cooldown self =? 0)); [|discriminate].
    cbn [result fst]. intros [= <-].
    destruct (detected_direction_cases (dx self) (dy self))
      as [(H1 & H2 & ->)|[(H1 & H2 & ->)|[(H1 & H2 & ->)|(H1 & H2 & ->)]]];
      (split; [|split; [|split]]);
      try (intros; exfalso; lia);
      try (intros [?|?]; discriminate);
      try (intros _; destruct (dx self >? 0) eqn:?; try reflexivity; lia);
      try (intros _; destruct (dy self >? 0) eqn:?; try reflexivity; lia);
      auto.
  - intros Hc -> Hsmall. cbn [String.eqb orb andb].
    replace (2 ^ 64 <=? dx self ^ 2 + dy self ^ 2) with false by lia.
    replace (gesture_cooldown self =? 0) with true by lia.
    split; reflexivity.
  - intros Hc -> Hx Hy. rewrite Hx, Hy. cbn [String.eqb orb andb].
    replace (gesture_cooldown self =? 0) with true by lia.
    reflexivity.
Qed.

Lemma detectSwipe_axis_classification_witness :
  result (detectSwipe "any" 50 (sample [(10,10); (0,0); (0,0); (0,0); (60,60)] 0))
  = Return (Some "down") /\
  ("down" = "right" \/ "down" = "left" <->
   Z.abs (dx (sample [(10,10); (0,0); (0,0); (0,0); (60,60)] 0))
   > Z.abs (dy (sample [(10,10); (0,0); (0,0); (0,0); (60,60)] 0))).
Proof.
  assert (Hdist : 50 <= 0 \/
                  50 * 50
                  <= dx (sample [(10,10); (0,0); (0,0); (0,0); (60,60)] 0) ^ 2
                     + dy (sample [(10,10); (0,0); (0,0); (0,0); (60,60)] 0) ^ 2).
  { right. vm_compute. discriminate. }
  assert (Hlen : 5 <= len (position_history
                             (sample [(10,10); (0,0); (0,0); (0,0); (60,60)] 0))).
  { vm_compute. discriminate. }
  destruct (detectSwipe_axis_classification
              (sample [(10,10); (0,0); (0,0); (0,0); (60,60)] 0) "any" 50
              Hlen Hdist) as (H1 & H2 & H3).
  assert (Hret := proj1 (H2 eq_refl eq_refl ltac:(vm_compute; reflexivity))).
  split.
  - exact Hret.
  - apply (H1 "down"). exact Hret.
Defined.

(** C5. [detectPush] and [detectPull] both read the vertical displacement
    [newest.y - oldest.y] of the one history: with at least 5 samples and no
    cooldown, [detectPush t] returns true exactly when that displacement is
    above [t] and [detectPull t] exactly when it is below [-t]; a true
    answer resets the cooldown to [cooldown_frames] and touches nothing
    else, a false one changes nothing. *)
Theorem push_pull_vertical_axis (self : GestureRecognizer) (t : Z) :
  5 <= len (position_history self) ->
  gesture_cooldown self = 0 ->
  (result (detectPush t self) = Return true
   <-> snd (newest self) - snd (oldest self) > t) /\
  (result (detectPull t self) = Return true
   <-> snd (newest self) - snd (oldest self) < - t) /\
  detectPush t self
  = (if snd (newest self) - snd (oldest self) >? t
     then (Return true, set_gesture_cooldown (cooldown_frames self) self)
     else (Return false, self)) /\
  detectPull t self
  = (if snd (newest self) - snd (oldest self) <? - t
     then (Return true, set_gesture_cooldown (cooldown_frames self) self)
     else (Return false, self)) /\
  (snd (newest self) - snd (oldest self) > t ->
   gesture_cooldown (after (detectPush t self)) = cooldown_frames self /\
   cooldown_frames (after (detectPush t self)) = cooldown_frames self /\
   position_history (after (detectPush t self)) = position_history self /\
   last_gesture (after (detectPush t self)) = last_gesture self) /\
  (snd (newest self) - snd (oldest self) < - t ->
   gesture_cooldown (after (detectPull t self)) = cooldown_frames self /\
   cooldown_frames (after (detectPull t self)) = cooldown_frames self /\
   position_history (after (detectPull t self)) = position_history self /\
   last_gesture (after (detectPull t self)) = last_gesture self) /\
  (snd (newest self) - snd (oldest self) <= t ->
   after (detectPush t self) = self) /\
  (- t <= snd (newest self) - snd (oldest self) ->
   after (detectPull t self) = self).
Proof.
  intros Hlen Hc. rewrite detectPush_equation, detectPull_equation.
  destruct (len (position_history self) <? 5) eqn:E; [lia|].
  replace (gesture_cooldown self =? 0) with true by lia.
  rewrite !andb_true_r. unfold dy.
  split; [|split; [|split; [reflexivity|split; [reflexivity|]]]];
    [| |split; [|split; [|split]]].
  3: { intros H. replace (snd (newest self) - snd (oldest self) >? t)
         with true by lia. repeat split. }
  3: { intros H. replace (snd (newest self) - snd (oldest self) <? - t)
         with true by lia. repeat split. }
  3: { intros H. replace (snd (newest self) - snd (oldest self) >? t)
         with false by lia. reflexivity. }
  3: { intros H. replace (snd (newest self) - snd (oldest self) <? - t)
         with false by lia. reflexivity. }
  - destruct (snd (newest self) - snd (oldest self) >? t) eqn:E1;
      cbn [result fst]; split; intros H;
      first [lia | reflexivity | discriminate].
  - destruct (snd (newest self) - snd (oldest self) <? - t) eqn:E1;
      cbn [result fst]; split; intros H;
      first [lia | reflexivity | discriminate].
Qed.

Lemma push_pull_vertical_axis_witness :
  (result (detectPush 150 (sample [(0,0); (300,0); (0,0); (0,0); (0,200)] 0))
   = Return true <-> 200 - 0 > 150) /\
  (result (detectPull 150 (sample [(0,0); (300,0); (0,0); (0,0); (0,200)] 0))
   = Return true <-> 200 - 0 < - 150) /\
  gesture_cooldown
    (after (detectPush 150 (sample [(0,0); (300,0); (0,0); (0,0); (0,200)] 0)))
  = 15 /\
  after (detectPull 150 (sample [(0,0); (300,0); (0,0); (0,0); (0,200)] 0))
  = sample [(0,0); (300,0); (0,0); (0,0); (0,200)] 0.
Proof.
  destruct (push_pull_vertical_axis
              (sample [(0,0); (300,0); (0,0); (0,0); (0,200)] 0) 150)
    as (H1 & H2 & _ & _ & H5 & _ & _ & H8);
    [vm_compute; discriminate|reflexivity|].
  split; [exact H1|]. split; [exact H2|].
  split.
  - apply H5. vm_compute. reflexivity.
  - apply H8. vm_compute. discriminate.
Defined.

(** C6, as the spec has it, fails: a detector call can raise. On five
    samples whose ends are 2^32 apart the squared displacement is 2^64,
    [np.sqrt] has no square root for such an integer, and [detectSwipe]
    raises [TypeError] where the claim has it return. *)
Lemma detectSwipe_raises_on_huge_displacement :
  let self := sample [(0,0); (0,0); (0,0); (0,0); (4294967296,0)] 0 in
  detectSwipe "any" 100 self = (Raise TypeError, self) /\
  ~ (exists r, result (detectSwipe "any" 100 self) = Return r).
Proof.
  cbv zeta. split; [reflexivity|]. intros [r Hr]. discriminate Hr.
Qed.

(** C6, amended. [detectPush] and [detectPull] never raise, and
    [detectSwipe] raises only out of [np.sqrt], on at least 5 samples with
    a squared displacement of 2^64 or more. Short of that every
    failure-like condition (fewer than 5 samples whatever they are, a
    displacement below the threshold where the float comparison is exact,
    an active cooldown, a swipe in another direction than the one asked
    for) gives the one negative answer, [None] for [detectSwipe] and
    [False] for [detectPush] and [detectPull], on an unchanged instance. *)
Theorem detectors_failure_answers (self : GestureRecognizer)
        (direction : string) (threshold : Z) :
  (exists b, result (detectPush threshold self) = Return b) /\
  (exists b, result (detectPull threshold self) = Return b) /\
  (len (position_history self) < 5 \/ dx self ^ 2 + dy self ^ 2 < 2 ^ 64 ->
   exists r, result (detectSwipe direction threshold self) = Return r) /\
  (5 <= len (position_history self) -> 2 ^ 64 <= dx self ^ 2 + dy self ^ 2 ->
   detectSwipe direction threshold self = (Raise TypeError, self)) /\
  (len (position_history self) < 5 ->
   detectSwipe direction threshold self = (Return None, self) /\
   detectPush threshold self = (Return false, self) /\
   detectPull threshold self = (Return false, self)) /\
  (float_exact (dx self ^ 2 + dy self ^ 2) threshold ->
   0 < threshold -> dx self ^ 2 + dy self ^ 2 < threshold * threshold ->
   detectSwipe direction threshold self = (Return None, self)) /\
  (dy self <= threshold -> detectPush threshold self = (Return false, self)) /\
  (- threshold <= dy self -> detectPull threshold self = (Return false, self)) /\
  (gesture_cooldown self <> 0 ->
   (len (position_history self) < 5 \/ dx self ^ 2 + dy self ^ 2 < 2 ^ 64 ->
    detectSwipe direction threshold self = (Return None, self)) /\
   detectPush threshold self = (Return false, self) /\
   detectPull threshold self = (Return false, self)) /\
  (direction <> "any" -> direction <> detected_direction (dx self) (dy self) ->
   len (position_history self) < 5 \/ dx self ^ 2 + dy self ^ 2 < 2 ^ 64 ->
   detectSwipe direction threshold self = (Return None, self)).
Proof.
  rewrite detectSwipe_equation, detectPush_equation, detectPull_equation.
  unfold result, float_exact.
  destruct (len (position_history self) <? 5) eqn:E.
  { cbn [fst]. repeat split; intros; eauto. lia. }
  split; [|split; [|split; [|split; [|split; [|split; [|split; [|split; [|split]]]]]]]].
  - destruct ((dy self >? threshold) && (gesture_cooldown self =? 0));
      cbn [fst]; eauto.
  - destruct ((dy self <? - threshold) && (gesture_cooldown self =? 0));
      cbn [fst]; eauto.
  - intros [Hshort|Hsmall]; [lia|].
    replace (2 ^ 64 <=? dx self ^ 2 + dy self ^ 2) with false by lia.
    destruct (distance _ _ <? threshold); [cbn [fst]; eauto|].
    destruct ((String.eqb direction "any" || String.eqb direction _)
              && (gesture_cooldown self =? 0)); cbn [fst]; eauto.
  - intros _ Hhuge.
    replace (2 ^ 64 <=? dx self ^ 2 + dy self ^ 2) with true by lia.
    reflexivity.
  - intros Hlen. lia.
  - intros [Hn _] Ht Hlt.
    replace (2 ^ 64 <=? dx self ^ 2 + dy self ^ 2) with false by lia.
    apply (distance_below_threshold (dx self) (dy self) threshold Ht) in Hlt.
    replace (distance (dx self) (dy self) <? threshold) with true by lia.
    reflexivity.
  - intros Hle. replace (dy self >? threshold) with false by lia. reflexivity.
  - intros Hle. replace (dy self <? - threshold) with false by lia. reflexivity.
  - intros Hc. replace (gesture_cooldown self =? 0) with false by lia.
    rewrite !andb_false_r. split; [|split; reflexivity].
    intros [Hshort|Hsmall]; [lia|].
    replace (2 ^ 64 <=? dx self ^ 2 + dy self ^ 2) with false by lia.
    destruct (distance _ _ <? threshold); reflexivity.
  - intros Hany Hdir [Hshort|Hsmall]; [lia|].
    replace (2 ^ 64 <=? dx self ^ 2 + dy self ^ 2) with false by lia.
    apply String.eqb_neq in Hany, Hdir. rewrite Hany, Hdir. cbn [orb andb].
    destruct (distance _ _ <? threshold); reflexivity.
Qed.

Lemma detectors_failure_answers_witness :
  detectSwipe "any" 100 (sample [(500,0); (0,0); (0,900); (7,7)] 0)
  = (Return None, sample [(500,0); (0,0); (0,900); (7,7)] 0) /\
  detectSwipe "any" 100 (sample [(0,0); (0,0); (0,0); (0,0); (60,60)] 0)
  = (Return None, sample [(0,0); (0,0); (0,0); (0,0); (60,60)] 0) /\
  detectPush 150 (sample [(0,0); (0,0); (0,0); (0,0); (60,60)] 0)
  = (Return false, sample [(0,0); (0,0); (0,0); (0,0); (60,60)] 0) /\
  detectPull 150 (sample [(0,0); (0,0); (0,0); (0,0); (60,60)] 0)
  = (Return false, sample [(0,0); (0,0); (0,0); (0,0); (60,60)] 0) /\
  detectSwipe "any" 100 (sample [(0,0); (0,0); (0,0); (0,0); (200,0)] 15)
  = (Return None, sample [(0,0); (0,0); (0,0); (0,0); (200,0)] 15) /\
  detectSwipe "left" 100 (sample [(0,0); (0,0); (0,0); (0,0); (200,0)] 0)
  = (Return None, sample [(0,0); (0,0); (0,0); (0,0); (200,0)] 0) /\
  detectSwipe "any" 100 (sample [(0,0); (0,0); (0,0); (0,0); (0,-4294967296)] 0)
  = (Raise TypeError, sample [(0,0); (0,0); (0,0); (0,0); (0,-4294967296)] 0).
Proof.
  destruct (detectors_failure_answers
              (sample [(500,0); (0,0); (0,900); (7,7)] 0) "any" 100)
    as (_ & _ & _ & _ & Hshort & _).
  destruct (detectors_failure_answers
              (sample [(0,0); (0,0); (0,0); (0,0); (60,60)] 0) "any" 100)
    as (_ & _ & _ & _ & _ & Hbelow & _).
  destruct (detectors_failure_answers
              (sample [(0,0); (0,0); (0,0); (0,0); (60,60)] 0) "any" 150)
    as (_ & _ & _ & _ & _ & _ & Hpush & Hpull & _).
  destruct (detectors_failure_answers
              (sample [(0,0); (0,0); (0,0); (0,0); (200,0)] 15) "any" 100)
    as (_ & _ & _ & _ & _ & _ & _ & _ & Hcool & _).
  destruct (detectors_failure_answers
              (sample [(0,0); (0,0); (0,0); (0,0); (200,0)] 0) "left" 100)
    as (_ & _ & _ & _ & _ & _ & _ & _ & _ & Hdir).
  destruct (detectors_failure_answers
              (sample [(0,0); (0,0); (0,0); (0,0); (0,-4294967296)] 0) "any" 100)
    as (_ & _ & _ & Hhuge & _).
  split; [apply Hshort; vm_compute; reflexivity|].
  split; [apply Hbelow; [split|..]; vm_compute; reflexivity|].
  split; [apply Hpush; vm_compute; discriminate|].
  split; [apply Hpull; vm_compute; discriminate|].
  split; [apply Hcool; [vm_compute; discriminate|right; vm_compute; reflexivity]|].
  split; [apply Hdir; [discriminate|vm_compute; discriminate|
                        right; vm_compute; reflexivity]|].
  apply Hhuge; vm_compute; discriminate.
Defined.

(** C7. A detector call never touches the position history, a call with a
    negative answer leaves the whole instance as it was, and so repeating a
    call that answered negatively, with no [update] in between, gives the
    same answer each time. *)
Theorem detectors_frame (self : GestureRecognizer)
        (direction : string) (threshold : Z) :
  position_history (after (detectSwipe direction threshold self))
  = position_history self /\
  position_history (after (detectPush threshold self)) = position_history self /\
  position_history (after (detectPull threshold self)) = position_history self /\
  (result (detectSwipe direction threshold self) = Return None ->
   after (detectSwipe direction threshold self) = self /\
   forall k,
     detectSwipe direction threshold
       (Nat.iter k (fun s => after (detectSwipe direction threshold s)) self)
     = (Return None, self)) /\
  (result (detectPush threshold self) = Return false ->
   after (detectPush threshold self) = self /\
   forall k,
     detectPush threshold
       (Nat.iter k (fun s => after (detectPush threshold s)) self)
     = (Return false, self)) /\
  (result (detectPull threshold self) = Return false ->
   after (detectPull threshold self) = self /\
   forall k,
     detectPull threshold
       (Nat.iter k (fun s => after (detectPull threshold s)) self)
     = (Return false, self)).
Proof.
  split; [|split; [|split; [|split; [|split]]]].
  - apply (detector_frame (DetectSwipe direction threshold) self). discriminate.
  - apply (detector_frame (DetectPush threshold) self). discriminate.
  - apply (detector_frame (DetectPull threshold) self). discriminate.
  - intros H.
    assert (Hrun : detectSwipe direction threshold self = (Return None, self)).
    { revert H. rewrite detectSwipe_equation.
      case_ifs;
        cbn [result fst]; intros H; try reflexivity; discriminate. }
    split; [rewrite Hrun; reflexivity|].
    intros k.
    assert (Hiter : Nat.iter k (fun s => after (detectSwipe direction threshold s)) self = self).
    { induction k as [|k IH]; [reflexivity|].
      rewrite Nat.iter_succ, IH, Hrun. reflexivity. }
    rewrite Hiter. exact Hrun.
  - intros H.
    assert (Hrun : detectPush threshold self = (Return false, self)).
    { revert H. rewrite detectPush_equation.
      case_ifs;
        cbn [result fst]; intros H; try reflexivity; discriminate. }
    split; [rewrite Hrun; reflexivity|].
    intros k.
    assert (Hiter : Nat.iter k (fun s => after (detectPush threshold s)) self = self).
    { induction k as [|k IH]; [reflexivity|].
      rewrite Nat.iter_succ, IH, Hrun. reflexivity. }
    rewrite Hiter. exact Hrun.
  - intros H.
    assert (Hrun : detectPull threshold self = (Return false, self)).
    { revert H. rewrite detectPull_equation.
      case_ifs;
        cbn [result fst]; intros H; try reflexivity; discriminate. }
    split; [rewrite Hrun; reflexivity|].
    intros k.
    assert (Hiter : Nat.iter k (fun s => after (detectPull threshold s)) self = self).
    { induction k as [|k IH]; [reflexivity|].
      rewrite Nat.iter_succ, IH, Hrun. reflexivity. }
    rewrite Hiter. exact Hrun.
Qed.

Lemma detectors_frame_witness :
  (after (detectSwipe "any" 100 (sample [(0,0); (0,0); (0,0); (0,0); (60,60)] 0))
   = sample [(0,0); (0,0); (0,0); (0,0); (60,60)] 0) /\
  (after (detectPush 150 (sample [(0,0); (0,0); (0,0); (0,0); (60,60)] 0))
   = sample [(0,0); (0,0); (0,0); (0,0); (60,60)] 0) /\
  (detectPull 150
     (Nat.iter 3 (fun s => after (detectPull 150 s))
               (sample [(0,0); (0,0); (0,0); (0,0); (60,60)] 0))
   = (Return false, sample [(0,0); (0,0); (0,0); (0,0); (60,60)] 0)).
Proof.
  destruct (detectors_frame (sample [(0,0); (0,0); (0,0); (0,0); (60,60)] 0)
                            "any" 100) as (_ & _ & _ & H1 & _ & _).
  destruct (detectors_frame (sample [(0,0); (0,0); (0,0); (0,0); (60,60)] 0)
                            "any" 150) as (_ & _ & _ & _ & H2 & H3).
  split; [exact (proj1 (H1 eq_refl))|].
  split; [exact (proj1 (H2 eq_refl))|].
  exact (proj2 (H3 eq_refl) 3%nat).
Defined.

(** C10. With at least 5 samples, equal oldest and newest points, no
    cooldown and a threshold that is zero or negative, [detectSwipe] (asked
    for "any" direction, or for "up") does not answer [None]: the distance 0
    is not below the threshold, the tie [dx = dy = 0] goes to the vertical
    axis with [dy] not positive, and the call returns "up" and resets the
    cooldown. *)
Theorem detectSwipe_stationary_up (self : GestureRecognizer)
        (direction : string) (threshold : Z) :
  5 <= len (position_history self) ->
  oldest self = newest self ->
  gesture_cooldown self = 0 ->
  threshold <= 0 ->
  direction = "any" \/ direction = "up" ->
  (distance (dx self) (dy self) <? threshold) = false /\
  detected_direction (dx self) (dy self) = "up" /\
  detectSwipe direction threshold self
  = (Return (Some "up"), set_gesture_cooldown (cooldown_frames self) self) /\
  gesture_cooldown (after (detectSwipe direction threshold self))
  = cooldown_frames self.
Proof.
  intros Hlen Heq Hc Ht Hdir.
  assert (Hx : dx self = 0) by (unfold dx; rewrite Heq; lia).
  assert (Hy : dy self = 0) by (unfold dy; rewrite Heq; lia).
  assert (Hd : (distance (dx self) (dy self) <? threshold) = false).
  { pose proof (distance_nonneg (dx self) (dy self)). lia. }
  assert (Hrun : detectSwipe direction threshold self
                 = (Return (Some "up"),
                    set_gesture_cooldown (cooldown_frames self) self)).
  { rewrite detectSwipe_equation, Hd.
    destruct (len (position_history self) <? 5) eqn:E; [lia|].
    rewrite Hx, Hy. change (detected_direction 0 0) with "up".
    replace (gesture_cooldown self =? 0) with true by lia.
    destruct Hdir as [-> | ->]; reflexivity. }
  split; [exact Hd|].
  split; [rewrite Hx, Hy; reflexivity|].
  split; [exact Hrun|].
  rewrite Hrun. reflexivity.
Qed.

Lemma detectSwipe_stationary_up_witness :
  detectSwipe "any" (-3) (sample [(4,9); (0,0); (80,2); (1,1); (4,9)] 0)
  = (Return (Some "up"), sample [(4,9); (0,0); (80,2); (1,1); (4,9)] 15).
Proof.
  apply (detectSwipe_stationary_up
           (sample [(4,9); (0,0); (80,2); (1,1); (4,9)] 0) "any" (-3)).
  - vm_compute. discriminate.
  - reflexivity.
  - reflexivity.
  - lia.
  - left. reflexivity.
Defined.

(** ** Construction and the attributes no method writes *)

(** C8, as the spec has it, fails: no call of the class supplies
    [cooldown_frames]. Passing it by keyword or as a second positional
    argument is a [TypeError], and no construction gives a recognizer whose
    [cooldown_frames] is 20. *)
Lemma cooldown_frames_not_configurable :
  GestureRecognizer_call [] [("cooldown_frames", 20)] = Raise TypeError /\
  GestureRecognizer_call [10; 20] [] = Raise TypeError /\
  ~ (exists args kwargs self,
        GestureRecognizer_call args kwargs = Return self /\
        cooldown_frames self = 20).
Proof.
  split; [reflexivity|]. split; [reflexivity|].
  intros (args & kwargs & self & Hcall & H20).
  destruct (call_fields _ _ _ Hcall) as (n & _ & ->).
  cbn in H20. discriminate.
Qed.

(** C8, amended. The constructor takes [history_size] only (10 when it is
    omitted), given positionally or by keyword, and builds the recognizer
    from that argument alone, for every size from 0 that the deque accepts
    (below 2^63); [cooldown_frames] is the constant 15 on every constructed
    recognizer and stays 15 whatever is called afterwards. *)
Theorem constructor_configuration :
  (forall n, 0 <= n < 2 ^ 63 ->
     GestureRecognizer_call [n] []
     = Return (mkGestureRecognizer (mkDeque n []) None 0 15) /\
     GestureRecognizer_call [] [("history_size", n)]
     = Return (mkGestureRecognizer (mkDeque n []) None 0 15)) /\
  GestureRecognizer_call [] []
  = Return (mkGestureRecognizer (mkDeque 10 []) None 0 15) /\
  (forall args kwargs self,
      GestureRecognizer_call args kwargs = Return self ->
      cooldown_frames self = 15) /\
  (forall self, reachable self -> cooldown_frames self = 15).
Proof.
  split; [|split; [reflexivity|split]].
  - intros n Hn. cbn [GestureRecognizer_call String.eqb Ascii.eqb Bool.eqb].
    unfold init, deque_new.
    replace ((n <? - 2 ^ 63) || (2 ^ 63 <=? n)) with false by lia.
    replace (n <? 0) with false by lia. split; reflexivity.
  - intros args kwargs self Hcall.
    destruct (call_fields _ _ _ Hcall) as (n & _ & ->). reflexivity.
  - intros self Hr. apply (reachable_invariant self Hr).
Qed.

Lemma constructor_configuration_witness :
  GestureRecognizer_call [7] []
  = Return (mkGestureRecognizer (mkDeque 7 []) None 0 15) /\
  cooldown_frames (mkGestureRecognizer (mkDeque 7 []) None 0 15) = 15 /\
  cooldown_frames
    (exec (DetectSwipe "any" 0) (mkGestureRecognizer (mkDeque 7 []) None 0 15))
  = 15.
Proof.
  destruct constructor_configuration as (Hn & _ & Hc & Hr).
  split; [apply (Hn 7); lia|].
  split; [apply (Hc [7] []); reflexivity|].
  apply Hr. apply reachable_exec. apply (reachable_init [7] []). reflexivity.
Defined.

(** C9, as the spec has it, fails: [detectSwipe] returns "right" here and
    [last_gesture] is still [None] afterwards. *)
Lemma last_gesture_not_recorded :
  let self := sample [(0,0); (0,0); (0,0); (0,0); (200,0)] 0 in
  result (detectSwipe "any" 100 self) = Return (Some "right") /\
  last_gesture (after (detectSwipe "any" 100 self)) <> Some "right".
Proof. cbv zeta. split; [reflexivity|]. cbn. discriminate. Qed.

(** C9, amended. [last_gesture] is [None] at construction and no method
    writes it: every call leaves it as it was, so it is [None] on every
    instance a program can hold, also right after a detector reported a
    gesture. *)
Theorem last_gesture_never_written :
  (forall c self, last_gesture (exec c self) = last_gesture self) /\
  (forall self, reachable self -> last_gesture self = None) /\
  (forall self direction threshold d,
      reachable self ->
      result (detectSwipe direction threshold self) = Return (Some d) ->
      last_gesture (after (detectSwipe direction threshold self)) = None).
Proof.
  split; [|split].
  - intros c self. destruct c as [position| | |].
    + unfold exec. rewrite update_equation. destruct position; reflexivity.
    + apply (detector_frame (DetectSwipe direction threshold) self). discriminate.
    + apply (detector_frame (DetectPush threshold) self). discriminate.
    + apply (detector_frame (DetectPull threshold) self). discriminate.
  - intros self Hr. apply (reachable_invariant self Hr).
  - intros self direction threshold d Hr _.
    apply (reachable_invariant (exec (DetectSwipe direction threshold) self)).
    apply reachable_exec. exact Hr.
Qed.

Lemma last_gesture_never_written_witness :
  let self := exec_all (map Update [Some (0,0); Some (0,0); Some (0,0);
                                    Some (0,0); Some (200,0)])
                       (mkGestureRecognizer (mkDeque 10 []) None 0 15) in
  result (detectSwipe "any" 100 self) = Return (Some "right") /\
  last_gesture (after (detectSwipe "any" 100 self)) = None.
Proof.
  cbv zeta. split; [reflexivity|].
  destruct last_gesture_never_written as (_ & _ & H).
  apply (H _ "any" 100 "right"); [|reflexivity].
  unfold exec_all. cbn [map fold_left].
  repeat apply reachable_exec.
  apply (reachable_init [] []). reflexivity.
Defined.

(** * Further properties of the recognizer *)

(** A call either reports a gesture, from cooldown 0, and leaves the
    cooldown at [cooldown_frames], or reports nothing and leaves the
    cooldown as it was. *)
Lemma exec_reports_cases (c : call) (self : GestureRecognizer) :
  cooldown_frames (exec c self) = cooldown_frames self /\
  ((reports c self = true /\ gesture_cooldown self = 0 /\
    gesture_cooldown (exec c self) = cooldown_frames self) \/
   (reports c self = false /\
    gesture_cooldown (exec c self) = gesture_cooldown self)).
Proof.
  destruct c as [position|direction threshold|threshold|threshold];
    unfold exec, reports, result, after.
  - rewrite update_equation. destruct position; cbn; auto.
  - rewrite detectSwipe_equation.
    destruct (len (position_history self) <? 5); [cbn; auto|].
    destruct (2 ^ 64 <=? _); [cbn; auto|].
    destruct (distance _ _ <? threshold); [cbn; auto|].
    destruct (String.eqb direction "any" || String.eqb direction _);
      cbn [andb]; [|cbn; auto].
    destruct (gesture_cooldown self =? 0) eqn:E; cbn; [|auto].
    split; [reflexivity|]. left. repeat split; lia.
  - rewrite detectPush_equation.
    destruct (len (position_history self) <? 5); [cbn; auto|].
    destruct (dy self >? threshold); cbn [andb]; [|cbn; auto].
    destruct (gesture_cooldown self =? 0) eqn:E; cbn; [|auto].
    split; [reflexivity|]. left. repeat split; lia.
  - rewrite detectPull_equation.
    destruct (len (position_history self) <? 5); [cbn; auto|].
    destruct (dy self <? - threshold); cbn [andb]; [|cbn; auto].
    destruct (gesture_cooldown self =? 0) eqn:E; cbn; [|auto].
    split; [reflexivity|]. left. repeat split; lia.
Qed.

Lemma gestures_reported_locked (cs : list call) (self : GestureRecognizer) :
  cooldown_frames self <> 0 ->
  gesture_cooldown self = cooldown_frames self ->
  gestures_reported cs self = 0%nat.
Proof.
  revert self. induction cs as [|c cs IH]; intros self Hf Hg; [reflexivity|].
  cbn [gestures_reported].
  destruct (exec_reports_cases c self) as (Hcf & [(Hr & H0 & Hc)|(Hr & Hc)]).
  - exfalso. lia.
  - rewrite Hr, IH; [reflexivity| |]; lia.
Qed.

Lemma gestures_reported_at_most_one (cs : list call) (self : GestureRecognizer) :
  cooldown_frames self <> 0 ->
  (gestures_reported cs self <= 1)%nat.
Proof.
  revert self. induction cs as [|c cs IH]; intros self Hf; [cbn; lia|].
  cbn [gestures_reported].
  destruct (exec_reports_cases c self) as (Hcf & [(Hr & H0 & Hc)|(Hr & Hc)]).
  - rewrite Hr, gestures_reported_locked; [lia| |]; lia.
  - rewrite Hr. cbn [Nat.add]. apply IH. lia.
Qed.

(** X1. A constructed recognizer reports at most one gesture in its life:
    over any sequence of calls, updates included, at most one detector call
    answers positively. The first report sets the cooldown to 15 and no
    call takes it down again. *)
Theorem at_most_one_gesture_ever (self : GestureRecognizer) (cs : list call) :
  reachable self ->
  (gestures_reported cs self <= 1)%nat /\
  (gesture_cooldown self <> 0 -> gestures_reported cs self = 0%nat).
Proof.
  intros Hr.
  destruct (reachable_invariant self Hr) as (_ & _ & Hcf & Hg).
  split.
  - apply gestures_reported_at_most_one. lia.
  - intros Hne. apply gestures_reported_locked; lia.
Qed.

Lemma at_most_one_gesture_ever_witness :
  Nat.le
    (gestures_reported
       ([DetectSwipe "any" 100] ++ map Update (repeat None 20)
        ++ [DetectSwipe "any" 100; DetectPush 0])
       (exec_all (map Update [Some (0,0); Some (0,0); Some (0,0);
                              Some (0,0); Some (200,300)])
                 (mkGestureRecognizer (mkDeque 10 []) None 0 15)))
    1%nat.
Proof.
  apply at_most_one_gesture_ever.
  unfold exec_all. cbn [map fold_left].
  repeat apply reachable_exec.
  apply (reachable_init [] []). reflexivity.
Defined.

Lemma exec_all_history_size (cs : list call) (self : GestureRecognizer) :
  bounded self ->
  bounded (exec_all cs self) /\
  history_size (exec_all cs self) = history_size self.
Proof.
  revert self. induction cs as [|c cs IH]; intros self Hb; [split; auto|].
  change (exec_all (c :: cs) self) with (exec_all cs (exec c self)).
  destruct (IH (exec c self) (exec_bounded c self Hb)) as [H1 H2].
  split; [exact H1|]. rewrite H2. apply exec_history_size.
Qed.

Lemma short_history_reports_nothing (c : call) (self : GestureRecognizer) :
  len (position_history self) < 5 -> reports c self = false.
Proof.
  intros Hlen.
  destruct c as [position|direction threshold|threshold|threshold];
    unfold reports, result; [reflexivity| | |].
  - rewrite detectSwipe_equation.
    destruct (len (position_history self) <? 5) eqn:E; [reflexivity|lia].
  - rewrite detectPush_equation.
    destruct (len (position_history self) <? 5) eqn:E; [reflexivity|lia].
  - rewrite detectPull_equation.
    destruct (len (position_history self) <? 5) eqn:E; [reflexivity|lia].
Qed.

(** X2. A recognizer constructed with [history_size] below 5 never reports
    a gesture: its history cannot reach the 5 samples every detector asks
    for, whatever is called on it. *)
Theorem small_capacity_never_detects (n : Z) (self0 : GestureRecognizer)
        (cs : list call) (c : call) :
  init n = Return self0 ->
  n < 5 ->
  reports c (exec_all cs self0) = false /\
  gestures_reported cs self0 = 0%nat.
Proof.
  intros Hinit Hn. destruct (init_fields _ _ Hinit) as [H0 ->].
  set (self0 := mkGestureRecognizer (mkDeque n []) None 0 15).
  assert (Hb0 : bounded self0) by (unfold bounded; cbn; lia).
  assert (Hshort : forall cs', len (position_history (exec_all cs' self0)) < 5).
  { intros cs'. destruct (exec_all_history_size cs' self0 Hb0) as [[_ Hle] Hsz].
    unfold len. fold (history (exec_all cs' self0)).
    rewrite Hsz in Hle. cbn in Hle. lia. }
  split; [apply short_history_reports_nothing, Hshort|].
  assert (Hgen : forall cs1 cs2,
             gestures_reported cs2 (exec_all cs1 self0) = 0%nat).
  { intros cs1 cs2. revert cs1.
    induction cs2 as [|c2 cs2 IH]; intros cs1; [reflexivity|].
    cbn [gestures_reported].
    rewrite (short_history_reports_nothing c2 _ (Hshort cs1)).
    rewrite <- exec_all_snoc. apply IH. }
  apply (Hgen [] cs).
Qed.

Lemma small_capacity_never_detects_witness :
  reports (DetectSwipe "any" 1)
          (exec_all (map Update [Some (0,0); Some (9,9); Some (50,0);
                                 Some (300,0); Some (600,0); Some (900,0)])
                    (mkGestureRecognizer (mkDeque 4 []) None 0 15))
  = false.
Proof.
  apply (small_capacity_never_detects 4 _ _ _ eq_refl). lia.
Defined.

(** X3. The direction filter of [detectSwipe]: a returned label is one of
    "right", "left", "down" and "up", and it is the direction asked for
    unless that was "any"; a direction that is none of these five strings
    (another spelling or case) never gets a label and leaves the instance
    as it was: the call returns [None], unless [np.sqrt] raises first (on
    at least 5 samples with a squared displacement of 2^64 or more). *)
Theorem detectSwipe_direction_filter (self : GestureRecognizer)
        (direction : string) (threshold : Z) :
  (forall d,
      result (detectSwipe direction threshold self) = Return (Some d) ->
      (d = "right" \/ d = "left" \/ d = "down" \/ d = "up") /\
      (direction = "any" \/ direction = d)) /\
  (direction <> "any" -> direction <> "right" -> direction <> "left" ->
   direction <> "down" -> direction <> "up" ->
   after (detectSwipe direction threshold self) = self /\
   (forall d, result (detectSwipe direction threshold self) <> Return (Some d)) /\
   (len (position_history self) < 5 \/ dx self ^ 2 + dy self ^ 2 < 2 ^ 64 ->
    detectSwipe direction threshold self = (Return None, self)) /\
   (5 <= len (position_history self) -> 2 ^ 64 <= dx self ^ 2 + dy self ^ 2 ->
    detectSwipe direction threshold self = (Raise TypeError, self))).
Proof.
  assert (Hlabel : forall d,
             result (detectSwipe direction threshold self) = Return (Some d) ->
             d = detected_direction (dx self) (dy self) /\
             (direction = "any" \/ direction = d)).
  { intros d. rewrite detectSwipe_equation. unfold result.
    destruct (len (position_history self) <? 5); [discriminate|].
    destruct (2 ^ 64 <=? _); [discriminate|].
    destruct (distance _ _ <? threshold); [discriminate|].
    destruct (String.eqb direction "any") eqn:Ea;
      [|destruct (String.eqb direction (detected_direction (dx self) (dy self)))
          eqn:Ed];
      cbn [orb andb]; try discriminate;
      (destruct (gesture_cooldown self =? 0); [|discriminate]);
      cbn [fst]; intros [= <-]; split; try reflexivity.
    - left. apply String.eqb_eq, Ea.
    - right. apply String.eqb_eq, Ed. }
  assert (Hfour : forall a b,
             detected_direction a b = "right" \/ detected_direction a b = "left" \/
             detected_direction a b = "down" \/ detected_direction a b = "up").
  { intros a b.
    destruct (detected_direction_cases a b)
      as [(_ & _ & ->)|[(_ & _ & ->)|[(_ & _ & ->)|(_ & _ & ->)]]]; auto. }
  split.
  - intros d Hd. destruct (Hlabel d Hd) as [-> Hdir]. split; [apply Hfour|exact Hdir].
  - intros Ha Hr Hl Hd Hu.
    assert (Hne : direction <> detected_direction (dx self) (dy self)).
    { destruct (Hfour (dx self) (dy self)) as [-> | [-> | [-> | ->]]];
        assumption. }
    rewrite detectSwipe_equation.
    apply String.eqb_neq in Ha, Hne. rewrite Ha, Hne. cbn [orb andb].
    destruct (len (position_history self) <? 5) eqn:Elen.
    { repeat split; try discriminate. intros. lia. }
    destruct (2 ^ 64 <=? dx self ^ 2 + dy self ^ 2) eqn:Ehuge.
    { repeat split; try discriminate. intros [?|?]; lia. }
    split; [destruct (distance _ _ <? threshold); reflexivity|].
    split; [intros d; destruct (distance _ _ <? threshold); discriminate|].
    split; [intros _; destruct (distance _ _ <? threshold); reflexivity|].
    intros _ Hhuge. lia.
Qed.

Lemma detectSwipe_direction_filter_witness :
  detectSwipe "Right" 100 (sample [(0,0); (0,0); (0,0); (0,0); (200,0)] 0)
  = (Return None, sample [(0,0); (0,0); (0,0); (0,0); (200,0)] 0) /\
  (("right" = "right" \/ "right" = "left" \/ "right" = "down" \/ "right" = "up") /\
   ("right" = "any" \/ "right" = "right")).
Proof.
  split.
  - apply (detectSwipe_direction_filter
             (sample [(0,0); (0,0); (0,0); (0,0); (200,0)] 0) "Right" 100);
      try discriminate.
    right. vm_compute. reflexivity.
  - apply (proj1 (detectSwipe_direction_filter
                    (sample [(0,0); (0,0); (0,0); (0,0); (200,0)] 0) "right" 100)
                 "right").
    reflexivity.
Defined.

(** The detectors read the history through its length, its oldest and its
    newest sample only. *)
Lemma detectors_read_ends (h : list point) (self : GestureRecognizer)
      (direction : string) (threshold : Z) :
  List.length h = List.length (history self) ->
  fst (last h (0, 0)) - fst (hd (0, 0) h) = dx self ->
  snd (last h (0, 0)) - snd (hd (0, 0) h) = dy self ->
  detectSwipe direction threshold (with_history h self)
  = (result (detectSwipe direction threshold self),
     with_history h (after (detectSwipe direction threshold self))) /\
  detectPush threshold (with_history h self)
  = (result (detectPush threshold self),
     with_history h (after (detectPush threshold self))) /\
  detectPull threshold (with_history h self)
  = (result (detectPull threshold self),
     with_history h (after (detectPull threshold self))).
Proof.
  intros Hlen Hx Hy.
  assert (Hl : len (position_history (with_history h self))
               = len (position_history self)).
  { unfold len, with_history. cbn. unfold history in Hlen. rewrite Hlen.
    reflexivity. }
  assert (Hdx : dx (with_history h self) = dx self) by exact Hx.
  assert (Hdy : dy (with_history h self) = dy self) by exact Hy.
  rewrite !detectSwipe_equation, !detectPush_equation, !detectPull_equation.
  rewrite Hl, Hdx, Hdy.
  change (gesture_cooldown (with_history h self)) with (gesture_cooldown self).
  split; [|split]; case_ifs; reflexivity.
Qed.

Lemma translate_ends (v : point) (l : list point) :
  fst (last (map (fun p : point => (fst p + fst v, snd p + snd v)) l) (0, 0))
  - fst (hd (0, 0) (map (fun p : point => (fst p + fst v, snd p + snd v)) l))
  = fst (last l (0, 0)) - fst (hd (0, 0) l) /\
  snd (last (map (fun p : point => (fst p + fst v, snd p + snd v)) l) (0, 0))
  - snd (hd (0, 0) (map (fun p : point => (fst p + fst v, snd p + snd v)) l))
  = snd (last l (0, 0)) - snd (hd (0, 0) l).
Proof.
  destruct l as [|a l]; [split; reflexivity|].
  set (f := fun p : point => (fst p + fst v, snd p + snd v)).
  assert (Hlast : last (map f (a :: l)) (0, 0) = f (last (a :: l) (0, 0))).
  { generalize a. induction l as [|b l IH]; intros a0; [reflexivity|].
    change (last (map f (a0 :: b :: l)) (0, 0)) with (last (map f (b :: l)) (0, 0)).
    change (last (a0 :: b :: l) (0, 0)) with (last (b :: l) (0, 0)).
    apply IH. }
  rewrite Hlast. cbn [map hd]. unfold f. cbn [fst snd]. split; lia.
Qed.

(** X4. The detectors see displacements only: moving every sample of the
    history by the same vector changes no detector's answer, and the
    recognizer left behind is the moved one. *)
Theorem detectors_translation_invariant (v : point) (self : GestureRecognizer)
        (direction : string) (threshold : Z) :
  detectSwipe direction threshold (translate v self)
  = (result (detectSwipe direction threshold self),
     translate v (after (detectSwipe direction threshold self))) /\
  detectPush threshold (translate v self)
  = (result (detectPush threshold self),
     translate v (after (detectPush threshold self))) /\
  detectPull threshold (translate v self)
  = (result (detectPull threshold self),
     translate v (after (detectPull threshold self))).
Proof.
  destruct (translate_ends v (history self)) as [Hx Hy].
  destruct (detectors_read_ends
              (map (fun p : point => (fst p + fst v, snd p + snd v)) (history self))
              self direction threshold) as (H1 & H2 & H3);
    [apply length_map|exact Hx|exact Hy|].
  assert (Hfr : forall c, (forall position, c <> Update position) ->
                          with_history
                            (map (fun p : point => (fst p + fst v, snd p + snd v))
                                 (history self)) (exec c self)
                          = translate v (exec c self)).
  { intros c Hc. destruct (detector_frame c self Hc) as (Hh & _).
    unfold translate, with_history. rewrite Hh. reflexivity. }
  assert (E1 := Hfr (DetectSwipe direction threshold) ltac:(discriminate)).
  assert (E2 := Hfr (DetectPush threshold) ltac:(discriminate)).
  assert (E3 := Hfr (DetectPull threshold) ltac:(discriminate)).
  cbn [exec] in E1, E2, E3. rewrite <- E1, <- E2, <- E3.
  split; [exact H1|split; [exact H2|exact H3]].
Qed.

(** X5. What lies between the oldest and the newest sample is never looked
    at: two histories of at least 5 samples with the same first and the same
    last sample get the same answer from every detector. *)
Theorem detectors_ignore_path (h : list point) (self : GestureRecognizer)
        (direction : string) (threshold : Z) :
  5 <= Z.of_nat (List.length h) ->
  5 <= Z.of_nat (List.length (history self)) ->
  hd (0, 0) h = oldest self ->
  last h (0, 0) = newest self ->
  result (detectSwipe direction threshold (with_history h self))
  = result (detectSwipe direction threshold self) /\
  result (detectPush threshold (with_history h self))
  = result (detectPush threshold self) /\
  result (detectPull threshold (with_history h self))
  = result (detectPull threshold self).
Proof.
  intros Hh Hs Hhd Hlast.
  assert (Hl : (len (position_history (with_history h self)) <? 5) = false).
  { unfold len, with_history. cbn. lia. }
  assert (Hl' : (len (position_history self) <? 5) = false).
  { unfold len. fold (history self). lia. }
  assert (Hdx : dx (with_history h self) = dx self).
  { unfold dx, newest, oldest at 1. unfold history at 1 2, with_history. cbn.
    rewrite Hhd, Hlast. reflexivity. }
  assert (Hdy : dy (with_history h self) = dy self).
  { unfold dy, newest, oldest at 1. unfold history at 1 2, with_history. cbn.
    rewrite Hhd, Hlast. reflexivity. }
  rewrite !detectSwipe_equation, !detectPush_equation, !detectPull_equation.
  rewrite Hl, Hl', Hdx, Hdy.
  change (gesture_cooldown (with_history h self)) with (gesture_cooldown self).
  split; [|split]; case_ifs; reflexivity.
Qed.

Lemma detectors_ignore_path_witness :
  result (detectSwipe "any" 100
            (with_history [(0,0); (900,900); (-500,3); (77,-80); (1,1); (200,0)]
                          (sample [(0,0); (0,0); (0,0); (0,0); (200,0)] 0)))
  = result (detectSwipe "any" 100 (sample [(0,0); (0,0); (0,0); (0,0); (200,0)] 0)).
Proof.
  apply (detectors_ignore_path
           [(0,0); (900,900); (-500,3); (77,-80); (1,1); (200,0)]
           (sample [(0,0); (0,0); (0,0); (0,0); (200,0)] 0) "any" 100);
    try reflexivity; vm_compute; discriminate.
Defined.

(** X6. Lowering the threshold never loses a gesture: a detector that
    reports at a threshold does exactly the same at every smaller one. *)
Theorem detectors_threshold_monotone (self : GestureRecognizer)
        (direction : string) (t t' : Z) :
  t' <= t ->
  (forall d, result (detectSwipe direction t self) = Return (Some d) ->
             detectSwipe direction t' self = detectSwipe direction t self) /\
  (result (detectPush t self) = Return true ->
   detectPush t' self = detectPush t self) /\
  (result (detectPull t self) = Return true ->
   detectPull t' self = detectPull t self).
Proof.
  intros Hle.
  rewrite !detectSwipe_equation, !detectPush_equation, !detectPull_equation.
  unfold result.
  destruct (len (position_history self) <? 5);
    [repeat split; intros; reflexivity|].
  split; [|split].
  - intros d. destruct (2 ^ 64 <=? _); [discriminate|].
    destruct (distance (dx self) (dy self) <? t) eqn:E; [discriminate|].
    replace (distance (dx self) (dy self) <? t') with false by lia.
    reflexivity.
  - destruct (dy self >? t) eqn:E; cbn [andb]; [|discriminate].
    replace (dy self >? t') with true by lia. reflexivity.
  - destruct (dy self <? - t) eqn:E; cbn [andb]; [|discriminate].
    replace (dy self <? - t') with true by lia. reflexivity.
Qed.

Lemma detectors_threshold_monotone_witness :
  detectSwipe "any" 30 (sample [(0,0); (0,0); (0,0); (0,0); (200,0)] 0)
  = detectSwipe "any" 100 (sample [(0,0); (0,0); (0,0); (0,0); (200,0)] 0) /\
  detectPush (-4) (sample [(0,0); (0,0); (0,0); (0,0); (0,200)] 0)
  = detectPush 150 (sample [(0,0); (0,0); (0,0); (0,0); (0,200)] 0) /\
  detectPull 9 (sample [(0,0); (0,0); (0,0); (0,0); (0,-200)] 0)
  = detectPull 150 (sample [(0,0); (0,0); (0,0); (0,0); (0,-200)] 0).
Proof.
  split; [|split].
  - destruct (detectors_threshold_monotone
                (sample [(0,0); (0,0); (0,0); (0,0); (200,0)] 0) "any" 100 30)
      as (H & _); [lia|]. apply (H "right"). reflexivity.
  - destruct (detectors_threshold_monotone
                (sample [(0,0); (0,0); (0,0); (0,0); (0,200)] 0) "any" 150 (-4))
      as (_ & H & _); [lia|]. apply H. reflexivity.
  - destruct (detectors_threshold_monotone
                (sample [(0,0); (0,0); (0,0); (0,0); (0,-200)] 0) "any" 150 9)
      as (_ & _ & H); [lia|]. apply H. reflexivity.
Defined.

Lemma distance_ge_abs (a b : Z) : Z.abs b <= distance a b.
Proof.
  unfold distance. apply Z.sqrt_le_square; [nia|lia|nia].
Qed.

(** X7. Push and pull overlap with the swipe: on a state where
    [detectPush t] (or [detectPull t]) reports, [t] is not negative and the
    squared displacement is below 2^64 (so that [np.sqrt] returns),
    [detectSwipe] asked for "any" direction at the same threshold reports
    too, and when the vertical displacement is the larger one its label is
    "down" for a push and "up" for a pull. [detectPush t] and
    [detectPull t] never both report on one state. *)
Theorem push_pull_are_swipes (self : GestureRecognizer) (t : Z) :
  0 <= t ->
  (result (detectPush t self) = Return true ->
   dx self ^ 2 + dy self ^ 2 < 2 ^ 64 ->
   (exists d, result (detectSwipe "any" t self) = Return (Some d)) /\
   (Z.abs (dx self) <= Z.abs (dy self) ->
    result (detectSwipe "any" t self) = Return (Some "down"))) /\
  (result (detectPull t self) = Return true ->
   dx self ^ 2 + dy self ^ 2 < 2 ^ 64 ->
   (exists d, result (detectSwipe "any" t self) = Return (Some d)) /\
   (Z.abs (dx self) <= Z.abs (dy self) ->
    result (detectSwipe "any" t self) = Return (Some "up"))) /\
  ~ (result (detectPush t self) = Return true /\
     result (detectPull t self) = Return true).
Proof.
  intros Ht.
  rewrite detectSwipe_equation, detectPush_equation, detectPull_equation.
  unfold result.
  destruct (len (position_history self) <? 5);
    [cbn [fst]; repeat split; try discriminate; intros [? ?]; discriminate|].
  pose proof (distance_ge_abs (dx self) (dy self)) as Hd.
  cbn [String.eqb Ascii.eqb Bool.eqb orb].
  split; [|split].
  - destruct (dy self >? t) eqn:E; cbn [andb]; [|discriminate].
    destruct (gesture_cooldown self =? 0); [|discriminate]. intros _ Hsmall.
    replace (2 ^ 64 <=? dx self ^ 2 + dy self ^ 2) with false by lia.
    replace (distance (dx self) (dy self) <? t) with false by lia.
    cbn [andb fst]. split; [eauto|].
    intros Habs. unfold detected_direction.
    replace (Z.abs (dx self) >? Z.abs (dy self)) with false by lia.
    replace (dy self >? 0) with true by lia. reflexivity.
  - destruct (dy self <? - t) eqn:E; cbn [andb]; [|discriminate].
    destruct (gesture_cooldown self =? 0); [|discriminate]. intros _ Hsmall.
    replace (2 ^ 64 <=? dx self ^ 2 + dy self ^ 2) with false by lia.
    replace (distance (dx self) (dy self) <? t) with false by lia.
    cbn [andb fst]. split; [eauto|].
    intros Habs. unfold detected_direction.
    replace (Z.abs (dx self) >? Z.abs (dy self)) with false by lia.
    replace (dy self >? 0) with false by lia. reflexivity.
  - intros [H1 H2].
    destruct (dy self >? t) eqn:E1; cbn [andb] in H1; [|discriminate].
    destruct (dy self <? - t) eqn:E2; cbn [andb] in H2; [lia|discriminate].
Qed.

Lemma push_pull_are_swipes_witness :
  result (detectSwipe "any" 150 (sample [(0,0); (0,0); (0,0); (0,0); (30,200)] 0))
  = Return (Some "down") /\
  result (detectSwipe "any" 150 (sample [(0,0); (0,0); (0,0); (0,0); (30,-200)] 0))
  = Return (Some "up").
Proof.
  split.
  - destruct (push_pull_are_swipes
                (sample [(0,0); (0,0); (0,0); (0,0); (30,200)] 0) 150)
      as (H & _); [lia|].
    apply H; [reflexivity|vm_compute; reflexivity|vm_compute; discriminate].
  - destruct (push_pull_are_swipes
                (sample [(0,0); (0,0); (0,0); (0,0); (30,-200)] 0) 150)
      as (_ & H & _); [lia|].
    apply H; [reflexivity|vm_compute; reflexivity|vm_compute; discriminate].
Defined.

Lemma updates_keep_cooldown (inputs : list (option point))
      (self : GestureRecognizer) :
  gesture_cooldown (exec_all (map Update inputs) self) = gesture_cooldown self.
Proof.
  revert self. induction inputs as [|position inputs IH]; intros self;
    [reflexivity|].
  change (exec_all (map Update (position :: inputs)) self)
    with (exec_all (map Update inputs) (exec (Update position) self)).
  rewrite IH. unfold exec. rewrite update_equation.
  destruct position; reflexivity.
Qed.

(** X8. Warm-up: after construction and any sequence of updates, no
    detector reports while fewer than 5 positions have been present, and
    the most permissive query, [detectSwipe] for "any" direction at
    threshold 0, reports exactly when the capacity and the number of
    positions seen are both at least 5, as long as the squared displacement
    over the history stays below 2^64 (so that [np.sqrt] returns). *)
Theorem warm_up_needs_five_positions (n : Z) (self0 : GestureRecognizer)
        (inputs : list (option point)) :
  init n = Return self0 ->
  (Z.of_nat (List.length (present inputs)) < 5 ->
   forall c, reports c (exec_all (map Update inputs) self0) = false) /\
  (dx (exec_all (map Update inputs) self0) ^ 2
   + dy (exec_all (map Update inputs) self0) ^ 2 < 2 ^ 64 ->
   (reports (DetectSwipe "any" 0) (exec_all (map Update inputs) self0) = true
    <-> 5 <= n /\ 5 <= Z.of_nat (List.length (present inputs)))).
Proof.
  intros Hinit.
  destruct (updates_window n self0 inputs Hinit) as (_ & _ & Hh).
  destruct (init_fields _ _ Hinit) as [Hn Hself0].
  set (self := exec_all (map Update inputs) self0) in *.
  assert (Hlen : len (position_history self)
                 = Z.min n (Z.of_nat (List.length (present inputs)))).
  { unfold len. fold (history self). rewrite Hh. apply lastn_length, Hn. }
  assert (Hc : gesture_cooldown self = 0).
  { unfold self. rewrite updates_keep_cooldown, Hself0. reflexivity. }
  split.
  - intros Hfew c. apply short_history_reports_nothing. lia.
  - intros Hsmall. unfold reports, result. rewrite detectSwipe_equation, Hc.
    pose proof (distance_nonneg (dx self) (dy self)) as Hd.
    replace (2 ^ 64 <=? dx self ^ 2 + dy self ^ 2) with false by lia.
    replace (distance (dx self) (dy self) <? 0) with false by lia.
    cbn [String.eqb Ascii.eqb Bool.eqb orb andb Z.eqb fst].
    destruct (len (position_history self) <? 5) eqn:E; cbn [fst].
    + split; [discriminate|]. intros [H1 H2]. lia.
    + split; [|reflexivity]. intros _. lia.
Qed.

Lemma warm_up_needs_five_positions_witness :
  reports (DetectPush (-1000))
          (exec_all (map Update [Some (0,0); None; Some (0,300); Some (0,600);
                                 None; Some (0,900)])
                    (mkGestureRecognizer (mkDeque 10 []) None 0 15))
  = false.
Proof.
  destruct (warm_up_needs_five_positions
              10 (mkGestureRecognizer (mkDeque 10 []) None 0 15)
              [Some (0,0); None; Some (0,300); Some (0,600); None; Some (0,900)]
              eq_refl) as [H _].
  apply H. vm_compute. reflexivity.
Defined.

(** X9. Which constructor calls fail: a [history_size] outside the 64-bit
    index range is an [OverflowError] and a negative one inside it a
    [ValueError] (both from the deque), and two or more arguments, or a
    keyword other than [history_size], are a [TypeError]; construction
    raises nothing else. *)
Theorem constructor_errors :
  (forall n, - 2 ^ 63 <= n < 0 ->
     GestureRecognizer_call [n] [] = Raise ValueError /\
     GestureRecognizer_call [] [("history_size", n)] = Raise ValueError) /\
  (forall n, n < - 2 ^ 63 \/ 2 ^ 63 <= n ->
     GestureRecognizer_call [n] [] = Raise OverflowError /\
     GestureRecognizer_call [] [("history_size", n)] = Raise OverflowError) /\
  (forall args kwargs,
      (2 <= List.length args + List.length kwargs)%nat ->
      GestureRecognizer_call args kwargs = Raise TypeError) /\
  (forall k n, k <> "history_size" ->
     GestureRecognizer_call [] [(k, n)] = Raise TypeError) /\
  (forall args kwargs e,
      GestureRecognizer_call args kwargs = Raise e ->
      e = ValueError \/ e = TypeError \/ e = OverflowError).
Proof.
  split; [|split; [|split; [|split]]].
  - intros n Hn. cbn [GestureRecognizer_call String.eqb Ascii.eqb Bool.eqb].
    unfold init, deque_new.
    replace ((n <? - 2 ^ 63) || (2 ^ 63 <=? n)) with false by lia.
    replace (n <? 0) with true by lia.
    split; reflexivity.
  - intros n Hn. cbn [GestureRecognizer_call String.eqb Ascii.eqb Bool.eqb].
    unfold init, deque_new.
    replace ((n <? - 2 ^ 63) || (2 ^ 63 <=? n)) with true by lia.
    split; reflexivity.
  - intros args kwargs Hlen.
    destruct args as [|a [|a' args]], kwargs as [|[k v] [|kv kwargs]];
      cbn [List.length] in Hlen; try lia; reflexivity.
  - intros k n Hk. unfold GestureRecognizer_call.
    apply String.eqb_neq in Hk. rewrite Hk. reflexivity.
  - intros args kwargs e. unfold GestureRecognizer_call, init, deque_new.
    destruct args as [|a [|a' args]], kwargs as [|[k v] [|kv kwargs]];
      try (intros [= <-]; auto);
      try (destruct (String.eqb k "history_size"));
      try (destruct ((_ <? - 2 ^ 63) || (2 ^ 63 <=? _)));
      try (destruct (_ <? 0)); try discriminate; intros [= <-]; auto.
Qed.

Lemma constructor_errors_witness :
  GestureRecognizer_call [-1] [] = Raise ValueError /\
  GestureRecognizer_call [9223372036854775808] [] = Raise OverflowError /\
  GestureRecognizer_call [3; 4] [] = Raise TypeError /\
  GestureRecognizer_call [] [("size", 8)] = Raise TypeError.
Proof.
  destruct constructor_errors as (H1 & H0 & H2 & H3 & _).
  split; [apply (H1 (-1)); lia|].
  split; [apply (H0 9223372036854775808); lia|].
  split; [apply (H2 [3; 4] []); cbn; lia|].
  apply (H3 "size" 8). discriminate.
Defined.

(** * Properties of the hand tracker *)

Lemma list_getitem_in {A : Type} (l : list A) (k : Z) (d : A) :
  0 <= k < Z.of_nat (List.length l) ->
  list_getitem l k = Return (nth (Z.to_nat k) l d).
Proof.
  intros Hk. unfold list_getitem. cbv zeta.
  replace (k <? 0) with false by lia. cbv iota.
  replace (k <? 0) with false by lia.
  replace (Z.of_nat (List.length l) <=? k) with false by lia. cbn [orb].
  destruct (nth_error l (Z.to_nat k)) as [x|] eqn:E.
  - rewrite (nth_error_nth _ _ d E). reflexivity.
  - apply nth_error_None in E. lia.
Qed.

Lemma list_getitem_out {A : Type} (l : list A) (k : Z) :
  Z.of_nat (List.length l) <= k -> list_getitem l k = Raise IndexError.
Proof.
  intros Hk. unfold list_getitem. cbv zeta.
  replace (k <? 0) with false by lia. cbv iota.
  replace (Z.of_nat (List.length l) <=? k) with true by lia.
  rewrite orb_true_r. reflexivity.
Qed.

Lemma list_getitem_from_end {A : Type} (l : list A) (k : Z) (d : A) :
  - Z.of_nat (List.length l) <= k < 0 ->
  list_getitem l k
  = Return (nth (Z.to_nat (Z.of_nat (List.length l) + k)) l d).
Proof.
  intros Hk. unfold list_getitem. cbv zeta.
  replace (k <? 0) with true by lia. cbv iota.
  replace (k + Z.of_nat (List.length l) <? 0) with false by lia.
  replace (Z.of_nat (List.length l) <=? k + Z.of_nat (List.length l))
    with false by lia.
  cbn [orb].
  replace (k + Z.of_nat (List.length l)) with (Z.of_nat (List.length l) + k)
    by lia.
  destruct (nth_error l (Z.to_nat (Z.of_nat (List.length l) + k))) as [x|] eqn:E.
  - rewrite (nth_error_nth _ _ d E). reflexivity.
  - apply nth_error_None in E. lia.
Qed.

Lemma list_getitem_before_start {A : Type} (l : list A) (k : Z) :
  k < - Z.of_nat (List.length l) -> list_getitem l k = Raise IndexError.
Proof.
  intros Hk. unfold list_getitem. cbv zeta.
  replace (k <? 0) with true by lia. cbv iota.
  replace (k + Z.of_nat (List.length l) <? 0) with true by lia.
  reflexivity.
Qed.

Lemma list_getitem_map {A B : Type} (f : A -> B) (l : list A) (k : Z) :
  list_getitem (map f l) k
  = match list_getitem l k with
    | Return x => Return (f x)
    | Raise e => Raise e
    end.
Proof.
  unfold list_getitem. cbv zeta. rewrite length_map, nth_error_map.
  destruct ((_ <? 0) || (_ <=? _)); [reflexivity|].
  destruct (nth_error l _); reflexivity.
Qed.

(** What a successful [get_all_landmarks] says of the tracker. *)
Lemma get_all_landmarks_some {coord : Type} (to_pixel : coord -> Z -> Z)
      (i : Z) (self : HandTracker coord) (l : list point) :
  get_all_landmarks to_pixel i self = Return (Some l) ->
  no_hands self = false /\
  (i >=? Z.of_nat (List.length (hands_of self))) = false /\
  exists hand_landmarks hw,
    list_getitem (hands_of self) i = Return hand_landmarks /\
    unpack_shape self = Return hw /\
    l = map (fun m => (to_pixel (lm_x m) (snd hw), to_pixel (lm_y m) (fst hw)))
            hand_landmarks.
Proof.
  unfold get_all_landmarks.
  destruct (no_hands self); [discriminate|].
  destruct (i >=? Z.of_nat (List.length (hands_of self))); [discriminate|].
  destruct (list_getitem (hands_of self) i) as [hl|e]; cbn [obind];
    [|discriminate].
  destruct (unpack_shape self) as [hw|e]; cbn [obind]; [|discriminate].
  intros [= <-]. repeat split. exists hl, hw. repeat split.
Qed.

(** X10. With no result yet, no hand in the result, or a hand index at or
    past the number of hands, every query answers negatively and none
    raises: no position, no landmarks, not pinching, zero fingers. *)
Theorem tracker_without_hand {coord : Type} (to_pixel : coord -> Z -> Z)
        (self : HandTracker coord) (hand_index threshold : Z) :
  no_hands self = true \/ Z.of_nat (List.length (hands_of self)) <= hand_index ->
  get_finger_tip_position to_pixel hand_index self = Return None /\
  get_all_landmarks to_pixel hand_index self = Return None /\
  is_pinching to_pixel hand_index threshold self = Return false /\
  count_fingers_up to_pixel hand_index self = Return 0.
Proof.
  intros H.
  assert (Hall : get_all_landmarks to_pixel hand_index self = Return None).
  { unfold get_all_landmarks. destruct (no_hands self); [reflexivity|].
    destruct H as [H|H]; [discriminate|].
    replace (hand_index >=? Z.of_nat (List.length (hands_of self)))
      with true by lia. reflexivity. }
  split; [|split; [exact Hall|split]].
  - unfold get_finger_tip_position. destruct (no_hands self); [reflexivity|].
    destruct H as [H|H]; [discriminate|].
    replace (hand_index >=? Z.of_nat (List.length (hands_of self)))
      with true by lia. reflexivity.
  - unfold is_pinching. rewrite Hall. reflexivity.
  - unfold count_fingers_up. rewrite Hall. reflexivity.
Qed.

Lemma tracker_without_hand_witness :
  is_pinching pixel_of_1024th 0 40 HandTracker_init = Return false /\
  count_fingers_up pixel_of_1024th 2
    (find_hands (480, 640, 3)
                (mkOutputs (Some [[mkLandmark 500 500]; [mkLandmark 1 2]]))
                HandTracker_init)
  = Return 0.
Proof.
  split.
  - apply (tracker_without_hand pixel_of_1024th HandTracker_init 0 40).
    left. reflexivity.
  - apply (tracker_without_hand pixel_of_1024th _ 2 40).
    right. vm_compute. discriminate.
Defined.

(** X11. The fingertip is landmark 8 of the landmark list: whenever
    [get_all_landmarks] returns a list, [get_finger_tip_position] returns
    that list's entry 8 (and raises [IndexError] when the list has no
    entry 8), and the one returns [None] exactly when the other does. *)
Theorem finger_tip_is_landmark_8 {coord : Type} (to_pixel : coord -> Z -> Z)
        (self : HandTracker coord) (hand_index : Z) :
  (forall l,
      get_all_landmarks to_pixel hand_index self = Return (Some l) ->
      get_finger_tip_position to_pixel hand_index self
      = match list_getitem l 8 with
        | Return p => Return (Some p)
        | Raise e => Raise e
        end) /\
  (get_all_landmarks to_pixel hand_index self = Return None
   <-> get_finger_tip_position to_pixel hand_index self = Return None).
Proof.
  split.
  - intros l Hl.
    destruct (get_all_landmarks_some _ _ _ _ Hl)
      as (Hno & Hidx & hl & hw & Hhand & Hshape & ->).
    unfold get_finger_tip_position. rewrite Hno, Hidx, Hhand. cbn [obind].
    rewrite list_getitem_map, Hshape.
    destruct (list_getitem hl 8); reflexivity.
  - unfold get_all_landmarks, get_finger_tip_position.
    destruct (no_hands self); [split; reflexivity|].
    destruct (hand_index >=? Z.of_nat (List.length (hands_of self)));
      [split; reflexivity|].
    destruct (list_getitem (hands_of self) hand_index) as [hl|e]; cbn [obind];
      [|split; discriminate].
    destruct (list_getitem hl 8) as [tip|e]; cbn [obind];
      destruct (unpack_shape self) as [hw|e']; cbn [obind];
      split; discriminate.
Qed.

Lemma finger_tip_is_landmark_8_witness :
  let hand21 := map (fun k => mkLandmark (Z.of_nat k * 10) (Z.of_nat k * 20))
                    (seq 0 21) in
  get_finger_tip_position pixel_of_1024th 0
    (find_hands (512, 1024, 3) (mkOutputs (Some [hand21])) HandTracker_init)
  = Return (Some (80, 80)).
Proof.
  cbv zeta.
  destruct (finger_tip_is_landmark_8
              pixel_of_1024th
              (find_hands (512, 1024, 3)
                 (mkOutputs
                    (Some [map (fun k => mkLandmark (Z.of_nat k * 10)
                                                    (Z.of_nat k * 20))
                               (seq 0 21)]))
                 HandTracker_init) 0) as [H _].
  rewrite (H _ eq_refl). reflexivity.
Defined.

(** X12. Which hand an index selects once a frame with hands has been
    processed: an index from 0 up to the number of hands selects that hand
    and gives one pixel point per landmark, an index at or past the number
    of hands gives [None], a negative index counts from the last hand (the
    guard only tests the upper bound), and one below minus the number of
    hands raises [IndexError]. *)
Theorem hand_index_selection {coord : Type} (to_pixel : coord -> Z -> Z)
        (self0 : HandTracker coord) (h w c : Z) (hs : list (hand coord))
        (hand_index : Z) :
  hs <> [] ->
  let self := find_hands (h, w, c) (mkOutputs (Some hs)) self0 in
  let n := Z.of_nat (List.length hs) in
  let pixels := map (fun m => (to_pixel (lm_x m) w, to_pixel (lm_y m) h)) in
  (0 <= hand_index < n ->
   get_all_landmarks to_pixel hand_index self
   = Return (Some (pixels (nth (Z.to_nat hand_index) hs [])))) /\
  (n <= hand_index ->
   get_all_landmarks to_pixel hand_index self = Return None) /\
  (- n <= hand_index < 0 ->
   get_all_landmarks to_pixel hand_index self
   = Return (Some (pixels (nth (Z.to_nat (n + hand_index)) hs [])))) /\
  (hand_index < - n ->
   get_all_landmarks to_pixel hand_index self = Raise IndexError /\
   get_finger_tip_position to_pixel hand_index self = Raise IndexError).
Proof.
  intros Hne. cbv zeta.
  unfold get_all_landmarks, get_finger_tip_position, no_hands, hands_of,
    unpack_shape, find_hands.
  cbn [results frame_shape multi_hand_landmarks falsy].
  destruct hs as [|h0 hs']; [congruence|].
  set (hs := h0 :: hs') in *. cbv iota.
  split; [|split; [|split]].
  - intros Hi. replace (hand_index >=? Z.of_nat (List.length hs)) with false by lia.
    rewrite (list_getitem_in hs hand_index [] Hi). reflexivity.
  - intros Hi. replace (hand_index >=? Z.of_nat (List.length hs)) with true by lia.
    reflexivity.
  - intros Hi. replace (hand_index >=? Z.of_nat (List.length hs)) with false by lia.
    rewrite (list_getitem_from_end hs hand_index [] Hi). reflexivity.
  - intros Hi. replace (hand_index >=? Z.of_nat (List.length hs)) with false by lia.
    rewrite (list_getitem_before_start hs hand_index Hi). split; reflexivity.
Qed.

Lemma hand_index_selection_witness :
  get_all_landmarks pixel_of_1024th (-1)
    (find_hands (480, 640, 3)
                (mkOutputs (Some [[mkLandmark 500 500]; [mkLandmark 250 750]]))
                HandTracker_init)
  = Return (Some [(156, 351)]) /\
  get_all_landmarks pixel_of_1024th (-3)
    (find_hands (480, 640, 3)
                (mkOutputs (Some [[mkLandmark 500 500]; [mkLandmark 250 750]]))
                HandTracker_init)
  = Raise IndexError.
Proof.
  destruct (hand_index_selection
              pixel_of_1024th HandTracker_init 480 640 3
              [[mkLandmark 500 500]; [mkLandmark 250 750]] (-1))
    as (_ & _ & H3 & _); [discriminate|].
  destruct (hand_index_selection
              pixel_of_1024th HandTracker_init 480 640 3
              [[mkLandmark 500 500]; [mkLandmark 250 750]] (-3))
    as (_ & _ & _ & H4); [discriminate|].
  split.
  - exact (H3 ltac:(cbn [List.length]; lia)).
  - exact (proj1 (H4 ltac:(cbn [List.length]; lia))).
Defined.

Lemma count_loop_range (l : list point) (pairs : list (Z * Z)) (acc n : Z) :
  count_loop l pairs acc = Return n ->
  acc <= n <= acc + Z.of_nat (List.length pairs).
Proof.
  revert acc. induction pairs as [|[tip joint] pairs IH]; intros acc.
  - cbn. intros [= <-]. lia.
  - cbn [count_loop List.length].
    destruct (list_getitem l tip) as [t|e]; cbn [obind]; [|discriminate].
    destruct (list_getitem l joint) as [j|e]; cbn [obind]; [|discriminate].
    intros H. apply IH in H. destruct (snd t <? snd j); lia.
Qed.

(** X13. [count_fingers_up] counts between 0 and 5 fingers whenever it
    returns, and on a hand with the 21 landmarks it returns the number of
    fingers whose tip is before its joint: the thumb by [x] (landmark 4
    against 3), the other four by [y] (8, 12, 16, 20 against 6, 10, 14,
    18). *)
Theorem count_fingers_up_value {coord : Type} (to_pixel : coord -> Z -> Z)
        (self : HandTracker coord) (hand_index : Z) :
  (forall n, count_fingers_up to_pixel hand_index self = Return n ->
             0 <= n <= 5) /\
  (forall l,
      get_all_landmarks to_pixel hand_index self = Return (Some l) ->
      21 <= Z.of_nat (List.length l) ->
      let p := fun k => nth k l (0, 0) in
      let up := fun b : bool => if b then 1 else 0 in
      count_fingers_up to_pixel hand_index self
      = Return (up (fst (p 4%nat) <? fst (p 3%nat))
                + up (snd (p 8%nat) <? snd (p 6%nat))
                + up (snd (p 12%nat) <? snd (p 10%nat))
                + up (snd (p 16%nat) <? snd (p 14%nat))
                + up (snd (p 20%nat) <? snd (p 18%nat)))).
Proof.
  split.
  - intros n. unfold count_fingers_up.
    destruct (get_all_landmarks to_pixel hand_index self) as [[l|]|e];
      cbn [obind falsy]; [| intros [= <-]; lia | discriminate].
    destruct l as [|p0 l']; [cbn [falsy]; intros [= <-]; lia|].
    cbn [falsy]. set (l := p0 :: l').
    destruct (list_getitem l 4) as [t|e]; cbn [obind]; [|discriminate].
    destruct (list_getitem l 3) as [j|e]; cbn [obind]; [|discriminate].
    intros H. apply count_loop_range in H. cbn in H.
    destruct (fst t <? fst j); lia.
  - intros l Hl Hlen. cbv zeta. unfold count_fingers_up. rewrite Hl.
    cbn [obind]. destruct l as [|p0 l']; [cbn [List.length] in Hlen; lia|].
    cbn [falsy]. set (l := p0 :: l') in *.
    cbv [finger_tips finger_joints combine].
    repeat (rewrite (list_getitem_in l _ (0, 0)) by lia;
            cbn [obind count_loop]).
    change (Z.to_nat 4) with 4%nat. change (Z.to_nat 3) with 3%nat.
    change (Z.to_nat 8) with 8%nat. change (Z.to_nat 6) with 6%nat.
    change (Z.to_nat 12) with 12%nat. change (Z.to_nat 10) with 10%nat.
    change (Z.to_nat 16) with 16%nat. change (Z.to_nat 14) with 14%nat.
    change (Z.to_nat 20) with 20%nat. change (Z.to_nat 18) with 18%nat.
    destruct (fst (nth 4 l (0, 0)) <? fst (nth 3 l (0, 0)));
      destruct (snd (nth 8 l (0, 0)) <? snd (nth 6 l (0, 0)));
      destruct (snd (nth 12 l (0, 0)) <? snd (nth 10 l (0, 0)));
      destruct (snd (nth 16 l (0, 0)) <? snd (nth 14 l (0, 0)));
      destruct (snd (nth 20 l (0, 0)) <? snd (nth 18 l (0, 0)));
      reflexivity.
Qed.

Lemma count_fingers_up_value_witness :
  count_fingers_up pixel_of_1024th 0
    (find_hands (1024, 1024, 3)
       (mkOutputs
          (Some [map (fun k => mkLandmark (1000 - Z.of_nat k * 10)
                                          (Z.of_nat k * 20))
                     (seq 0 21)]))
       HandTracker_init)
  = Return 1.
Proof.
  destruct (count_fingers_up_value
              pixel_of_1024th
              (find_hands (1024, 1024, 3)
                 (mkOutputs
                    (Some [map (fun k => mkLandmark (1000 - Z.of_nat k * 10)
                                                    (Z.of_nat k * 20))
                               (seq 0 21)]))
                 HandTracker_init) 0) as [_ H].
  exact (H _ eq_refl ltac:(vm_compute; discriminate)).
Defined.

(** X14. A hand with too few landmarks makes the queries raise rather than
    answer: with 1 to 20 landmarks [count_fingers_up] raises [IndexError],
    and with 1 to 8 landmarks so do [is_pinching] and
    [get_finger_tip_position]; only an empty landmark list is answered with
    0 and [False]. *)
Theorem short_hand_raises {coord : Type} (to_pixel : coord -> Z -> Z)
        (self : HandTracker coord) (hand_index threshold : Z) (l : list point) :
  get_all_landmarks to_pixel hand_index self = Return (Some l) ->
  (l = [] ->
   count_fingers_up to_pixel hand_index self = Return 0 /\
   is_pinching to_pixel hand_index threshold self = Return false) /\
  (0 < Z.of_nat (List.length l) < 21 ->
   count_fingers_up to_pixel hand_index self = Raise IndexError) /\
  (0 < Z.of_nat (List.length l) < 9 ->
   is_pinching to_pixel hand_index threshold self = Raise IndexError) /\
  (Z.of_nat (List.length l) < 9 ->
   get_finger_tip_position to_pixel hand_index self = Raise IndexError).
Proof.
  intros Hl. split; [|split; [|split]].
  - intros ->. unfold count_fingers_up, is_pinching. rewrite Hl.
    split; reflexivity.
  - intros Hlen. unfold count_fingers_up. rewrite Hl. cbn [obind].
    destruct l as [|p0 l']; [cbn [List.length] in Hlen; lia|].
    cbn [falsy]. set (l := p0 :: l') in *.
    cbv [finger_tips finger_joints combine].
    destruct (Z_lt_dec (Z.of_nat (List.length l)) 5);
      [rewrite (list_getitem_out l 4) by lia; reflexivity|].
    destruct (Z_lt_dec (Z.of_nat (List.length l)) 9);
      [repeat (rewrite (list_getitem_in l _ (0, 0)) by lia;
               cbn [obind count_loop]);
       rewrite (list_getitem_out l 8) by lia; reflexivity|].
    destruct (Z_lt_dec (Z.of_nat (List.length l)) 13);
      [repeat (rewrite (list_getitem_in l _ (0, 0)) by lia;
               cbn [obind count_loop]);
       rewrite (list_getitem_out l 12) by lia; reflexivity|].
    destruct (Z_lt_dec (Z.of_nat (List.length l)) 17);
      [repeat (rewrite (list_getitem_in l _ (0, 0)) by lia;
               cbn [obind count_loop]);
       rewrite (list_getitem_out l 16) by lia; reflexivity|].
    repeat (rewrite (list_getitem_in l _ (0, 0)) by lia;
            cbn [obind count_loop]).
    rewrite (list_getitem_out l 20) by lia. reflexivity.
  - intros Hlen. unfold is_pinching. rewrite Hl. cbn [obind].
    destruct l as [|p0 l']; [cbn [List.length] in Hlen; lia|].
    cbn [falsy]. set (l := p0 :: l') in *.
    destruct (Z_lt_dec (Z.of_nat (List.length l)) 5);
      [rewrite (list_getitem_out l 4) by lia; reflexivity|].
    rewrite (list_getitem_in l 4 (0, 0)) by lia. cbn [obind].
    rewrite (list_getitem_out l 8) by lia. reflexivity.
  - intros Hlen.
    destruct (get_all_landmarks_some _ _ _ _ Hl)
      as (Hno & Hidx & hl & hw & Hhand & Hshape & ->).
    rewrite length_map in Hlen.
    unfold get_finger_tip_position. rewrite Hno, Hidx, Hhand. cbn [obind].
    rewrite (list_getitem_out hl 8) by lia. reflexivity.
Qed.

Lemma short_hand_raises_witness :
  count_fingers_up pixel_of_1024th 0
    (find_hands (480, 640, 3)
       (mkOutputs (Some [map (fun k => mkLandmark (Z.of_nat k) (Z.of_nat k))
                             (seq 0 20)]))
       HandTracker_init)
  = Raise IndexError.
Proof.
  destruct (short_hand_raises
              pixel_of_1024th
              (find_hands (480, 640, 3)
                 (mkOutputs
                    (Some [map (fun k => mkLandmark (Z.of_nat k) (Z.of_nat k))
                               (seq 0 20)]))
                 HandTracker_init) 0 40 _ eq_refl) as (_ & H & _).
  apply H. vm_compute. split; reflexivity.
Defined.

(** X15. When [is_pinching] answers, on a hand with at least 9 landmarks
    and with [d2] the squared pixel distance between thumb tip (landmark 4)
    and index tip (landmark 8): it raises [TypeError] out of [np.sqrt] when
    [d2] is 2^64 or more and returns otherwise; a threshold of 0 or less
    never pinches; a pinch at one threshold is a pinch at every larger
    one; and where the float comparison is exact it says [True] exactly
    when the threshold is positive and [d2] is below its square. *)
Theorem is_pinching_distance {coord : Type} (to_pixel : coord -> Z -> Z)
        (self : HandTracker coord) (hand_index threshold : Z) (l : list point) :
  get_all_landmarks to_pixel hand_index self = Return (Some l) ->
  9 <= Z.of_nat (List.length l) ->
  let thumb_tip := nth 4 l (0, 0) in
  let index_tip := nth 8 l (0, 0) in
  let d2 := (fst thumb_tip - fst index_tip) ^ 2
            + (snd thumb_tip - snd index_tip) ^ 2 in
  (2 ^ 64 <= d2 ->
   is_pinching to_pixel hand_index threshold self = Raise TypeError) /\
  (d2 < 2 ^ 64 ->
   exists b, is_pinching to_pixel hand_index threshold self = Return b) /\
  (threshold <= 0 ->
   is_pinching to_pixel hand_index threshold self <> Return true) /\
  (forall t', threshold <= t' ->
      is_pinching to_pixel hand_index threshold self = Return true ->
      is_pinching to_pixel hand_index t' self = Return true) /\
  (float_exact d2 threshold ->
   (is_pinching to_pixel hand_index threshold self = Return true
    <-> 0 < threshold /\ d2 < threshold * threshold)).
Proof.
  intros Hl Hlen. cbv zeta.
  set (a := fst (nth 4 l (0, 0)) - fst (nth 8 l (0, 0))).
  set (b := snd (nth 4 l (0, 0)) - snd (nth 8 l (0, 0))).
  assert (Hrun : forall t,
             is_pinching to_pixel hand_index t self
             = if 2 ^ 64 <=? a ^ 2 + b ^ 2 then Raise TypeError
               else Return (distance a b <? t)).
  { intros t. unfold is_pinching. rewrite Hl. cbn [obind].
    destruct l as [|p0 l']; [cbn [List.length] in Hlen; lia|].
    cbn [falsy]. set (l := p0 :: l') in *.
    rewrite (list_getitem_in l 4 (0, 0)) by lia. cbn [obind].
    rewrite (list_getitem_in l 8 (0, 0)) by lia. cbn [obind].
    change (Z.to_nat 4) with 4%nat. change (Z.to_nat 8) with 8%nat.
    fold a b. unfold np_sqrt, distance.
    destruct (2 ^ 64 <=? a ^ 2 + b ^ 2); reflexivity. }
  pose proof (distance_nonneg a b) as H0.
  assert (Hiff : forall t,
             (distance a b <? t) = true <-> 0 < t /\ a ^ 2 + b ^ 2 < t * t).
  { intros t. split.
    - intros H. assert (Ht : 0 < t) by lia. split; [exact Ht|].
      apply (distance_below_threshold a b t Ht). lia.
    - intros [Ht H]. apply (distance_below_threshold a b t Ht) in H. lia. }
  split; [|split; [|split; [|split]]].
  - intros Hhuge. rewrite Hrun.
    replace (2 ^ 64 <=? a ^ 2 + b ^ 2) with true by lia. reflexivity.
  - intros Hsmall. rewrite Hrun.
    replace (2 ^ 64 <=? a ^ 2 + b ^ 2) with false by lia. eauto.
  - intros Ht. rewrite Hrun.
    destruct (2 ^ 64 <=? a ^ 2 + b ^ 2); [discriminate|].
    replace (distance a b <? threshold) with false by lia. discriminate.
  - intros t' Hle. rewrite !Hrun.
    destruct (2 ^ 64 <=? a ^ 2 + b ^ 2); [discriminate|].
    intros [= H]. f_equal. lia.
  - intros [Hn _]. rewrite Hrun.
    replace (2 ^ 64 <=? a ^ 2 + b ^ 2) with false by lia.
    rewrite <- Hiff. split; [intros [= ->]; reflexivity|].
    intros ->. reflexivity.
Qed.

Lemma is_pinching_distance_witness :
  let tracker :=
    find_hands (1024, 1024, 3)
      (mkOutputs (Some [map (fun k => mkLandmark (Z.of_nat k * 3) (Z.of_nat k * 4))
                            (seq 0 21)]))
      HandTracker_init in
  is_pinching pixel_of_1024th 0 21 tracker = Return true /\
  is_pinching pixel_of_1024th 0 20 tracker = Return false /\
  is_pinching pixel_of_1024th 0 0 tracker <> Return true.
Proof.
  cbv zeta.
  destruct (is_pinching_distance
              pixel_of_1024th
              (find_hands (1024, 1024, 3)
                 (mkOutputs
                    (Some [map (fun k => mkLandmark (Z.of_nat k * 3)
                                                    (Z.of_nat k * 4))
                               (seq 0 21)]))
                 HandTracker_init) 0 21 _ eq_refl)
    as (_ & _ & _ & _ & H); [vm_compute; discriminate|].
  destruct (is_pinching_distance
              pixel_of_1024th
              (find_hands (1024, 1024, 3)
                 (mkOutputs
                    (Some [map (fun k => mkLandmark (Z.of_nat k * 3)
                                                    (Z.of_nat k * 4))
                               (seq 0 21)]))
                 HandTracker_init) 0 0 _ eq_refl)
    as (_ & _ & H0 & _); [vm_compute; discriminate|].
  split; [|split; [reflexivity|]].
  - apply H; [split; vm_compute; reflexivity|].
    vm_compute. split; reflexivity.
  - apply H0. lia.
Defined.
